(** * A shallow embedding of [task_manager.py]

    The module holds two classes.  [Task] is a plain Python object whose
    instance dictionary carries seven data attributes; [TaskManager] owns a
    list of such objects and a JSON backing file.  Python is dynamically
    typed, and [update_task] writes caller-supplied values through
    [setattr], so attributes hold arbitrary values here and every attribute
    read can raise.  Floating-point numbers are left out of the value
    universe. *)

From Stdlib Require Import String Ascii ZArith List Bool Lia DecimalString.
Import ListNotations.

Local Open Scope string_scope.
Local Open Scope list_scope.
Local Open Scope Z_scope.

(** ** Python values *)

(** The values that JSON can carry: [None], booleans, integers, strings,
    lists and string-keyed dictionaries.  A dictionary is an association
    list in insertion order; lookup takes the first binding of a key. *)
#[warnings="-register-all"]
Inductive value : Type :=
| VNone
| VBool (b : bool)
| VInt (z : Z)
| VStr (s : string)
| VList (l : list value)
| VDict (d : list (string * value)).

Definition dict : Type := list (string * value).

(** The exceptions this module can meet. *)
Inductive exn : Type :=
| TypeError
| AttributeError
| KeyError
| JSONDecodeError.

(** ** Results of fallible evaluation *)

Inductive result (A : Type) : Type :=
| Ok (a : A)
| Raise (e : exn).

Arguments Ok {A} a.
Arguments Raise {A} e.

Definition rbind {A B : Type} (r : result A) (k : A -> result B) : result B :=
  match r with
  | Ok a => k a
  | Raise e => Raise e
  end.

Declare Scope result_scope.
Delimit Scope result_scope with result.
Notation "x <- r ;; k" := (rbind r (fun x => k))
  (at level 61, r at next level, right associativity) : result_scope.
Local Open Scope result_scope.

(** [[f(x) for x in xs]]: evaluation stops at the first exception. *)
Fixpoint mapM {A B : Type} (f : A -> result B) (xs : list A) : result (list B) :=
  match xs with
  | [] => Ok []
  | x :: xs' =>
      y <- f x ;;
      ys <- mapM f xs' ;;
      Ok (y :: ys)
  end.

(** [[x for x in xs if p(x)]] where the test itself may raise. *)
Fixpoint filterM {A : Type} (p : A -> result bool) (xs : list A) : result (list A) :=
  match xs with
  | [] => Ok []
  | x :: xs' =>
      b <- p x ;;
      ys <- filterM p xs' ;;
      Ok (if b then x :: ys else ys)
  end.

(** [[sum(1 for x in xs if p(x))]]. *)
Fixpoint countM {A : Type} (p : A -> result bool) (xs : list A) : result Z :=
  match xs with
  | [] => Ok 0
  | x :: xs' =>
      b <- p x ;;
      n <- countM p xs' ;;
      Ok (if b then 1 + n else n)
  end.

(** ** Dictionaries *)

Fixpoint dict_find (k : string) (d : dict) : option value :=
  match d with
  | [] => None
  | (k', v) :: d' => if String.eqb k k' then Some v else dict_find k d'
  end.

(** [[d.get(k, default)]] *)
Definition dict_get (d : dict) (k : string) (default : value) : value :=
  match dict_find k d with
  | Some v => v
  | None => default
  end.

(** [[d[k] = v]]: an existing key keeps its place, a new key goes last. *)
Fixpoint dict_set (k : string) (v : value) (d : dict) : dict :=
  match d with
  | [] => [(k, v)]
  | (k', v') :: d' =>
      if String.eqb k k' then (k', v) :: d' else (k', v') :: dict_set k v d'
  end.

Definition dict_has (k : string) (d : dict) : bool :=
  match dict_find k d with
  | Some _ => true
  | None => false
  end.

(** ** Operators on values *)

(** Truth value of an object, as tested by [[if x]] and [[not x]]. *)
Definition truthy (v : value) : bool :=
  match v with
  | VNone => false
  | VBool b => b
  | VInt z => negb (z =? 0)
  | VStr s => negb (String.eqb s "")
  | VList l => match l with [] => false | _ => true end
  | VDict d => match d with [] => false | _ => true end
  end.

(** [[v == n]] for an integer [n]; [True] and [False] compare as 1 and 0. *)
Definition eq_int (v : value) (n : Z) : bool :=
  match v with
  | VInt z => z =? n
  | VBool b => (if b then 1 else 0) =? n
  | _ => false
  end.

(** [[v == s]] for a string [s]. *)
Definition eq_str (v : value) (s : string) : bool :=
  match v with
  | VStr s' => String.eqb s' s
  | _ => false
  end.

(** [[data[key]]] with a string key: only a dictionary can be subscripted
    that way. *)
Definition subscript (data : value) (key : string) : result value :=
  match data with
  | VDict d =>
      match dict_find key d with
      | Some v => Ok v
      | None => Raise KeyError
      end
  | _ => Raise TypeError
  end.

(** [[for x in data]]: a list yields its elements, a dictionary its keys,
    a string its characters; nothing else is iterable. *)
Definition py_iter (data : value) : result (list value) :=
  match data with
  | VList l => Ok l
  | VDict d => Ok (map (fun kv => VStr (fst kv)) d)
  | VStr s => Ok (map (fun c => VStr (String c EmptyString)) (list_ascii_of_string s))
  | _ => Raise TypeError
  end.

(** [[s.lower()]] on ASCII text. *)
Definition lower_ascii (c : ascii) : ascii :=
  let n := nat_of_ascii c in
  if (Nat.leb 65 n && Nat.leb n 90)%bool then ascii_of_nat (n + 32) else c.

Fixpoint lower (s : string) : string :=
  match s with
  | EmptyString => EmptyString
  | String c s' => String (lower_ascii c) (lower s')
  end.

(** [[q in s]] for strings: [q] occurs in [s] as a contiguous run. *)
Fixpoint str_in (q s : string) : bool :=
  if String.prefix q s then true
  else match s with
       | EmptyString => false
       | String _ s' => str_in q s'
       end.

(** [[v.lower()]]: only strings have the method. *)
Definition value_lower (v : value) : result string :=
  match v with
  | VStr s => Ok (lower s)
  | _ => Raise AttributeError
  end.

(** ** The [Task] object *)

(** A task object has an identity, the number [[id(self)]] returns, and an
    instance dictionary.  The identity never changes; the dictionary is what
    attribute assignment writes to. *)
Record Task : Type := mkTask {
  addr : Z;
  attrs : dict
}.

(** Names an instance resolves through its class rather than through its own
    dictionary: the four methods the class defines and what every instance
    inherits from [[object]] (CPython 3.11 and 3.12). *)
Definition class_attrs : list string :=
  [ "__init__"; "to_dict"; "from_dict"; "__str__";
    "__module__"; "__doc__"; "__dict__"; "__weakref__";
    "__class__"; "__delattr__"; "__dir__"; "__eq__"; "__format__"; "__ge__";
    "__getattribute__"; "__getstate__"; "__gt__"; "__hash__";
    "__init_subclass__"; "__le__"; "__lt__"; "__ne__"; "__new__";
    "__reduce__"; "__reduce_ex__"; "__repr__"; "__setattr__"; "__sizeof__";
    "__subclasshook__" ].

Definition is_class_attr (key : string) : bool :=
  existsb (String.eqb key) class_attrs.

(** Reading a data attribute, [[task.name]]: none of the seven data names is
    defined by the class, so the instance dictionary decides. *)
Definition getattr (task : Task) (name : string) : result value :=
  match dict_find name (attrs task) with
  | Some v => Ok v
  | None => Raise AttributeError
  end.

(** [[hasattr(task, key)]] *)
Definition hasattr (task : Task) (key : string) : bool :=
  dict_has key (attrs task) || is_class_attr key.

(** [[self.name = v]] for a plain name: writes the instance dictionary. *)
Definition assign (task : Task) (name : string) (v : value) : Task :=
  {| addr := addr task; attrs := dict_set name v (attrs task) |}.

(** [[setattr(task, key, value)]].  Three names are data descriptors of the
    type: [[__class__]] accepts only a class, [[__weakref__]] is read-only,
    and [[__dict__]] replaces the whole instance dictionary when given a
    dictionary.  Every other name lands in the instance dictionary. *)
Definition setattr (task : Task) (key : string) (v : value) : result Task :=
  if String.eqb key "__class__" then Raise TypeError
  else if String.eqb key "__weakref__" then Raise AttributeError
  else if String.eqb key "__dict__" then
    match v with
    | VDict d => Ok {| addr := addr task; attrs := d |}
    | _ => Raise TypeError
    end
  else Ok (assign task key v).

(** [[Task.__init__]].  [self] is the identity of the object being built
    and [now] the formatted clock reading. *)
Definition Task_init (self : Z) (now : string)
    (title description priority due_date task_id : value) : Task :=
  {| addr := self;
     attrs :=
       [ ("id", match task_id with VNone => VInt self | _ => task_id end);
         ("title", title);
         ("description", description);
         ("priority", priority);
         ("due_date", due_date);
         ("completed", VBool false);
         ("created_at", VStr now) ] |}.

(** [[Task.to_dict]], called as [[task.to_dict()]]: an instance attribute of
    that name hides the method, and no value of the model is callable. *)
Definition to_dict (task : Task) : result value :=
  match dict_find "to_dict" (attrs task) with
  | Some _ => Raise TypeError
  | None =>
      i <- getattr task "id" ;;
      t <- getattr task "title" ;;
      d <- getattr task "description" ;;
      p <- getattr task "priority" ;;
      u <- getattr task "due_date" ;;
      c <- getattr task "completed" ;;
      a <- getattr task "created_at" ;;
      Ok (VDict [ ("id", i); ("title", t); ("description", d);
                  ("priority", p); ("due_date", u); ("completed", c);
                  ("created_at", a) ])
  end.

(** [[Task.from_dict]].  The clock is read twice, once inside the
    constructor and once for the default of [[created_at]]. *)
Definition from_dict (self : Z) (now_init now_default : string)
    (data : value) : result Task :=
  title <- subscript data "title" ;;
  match data with
  | VDict d =>
      let task :=
        Task_init self now_init title
          (dict_get d "description" (VStr ""))
          (dict_get d "priority" (VStr "Medium"))
          (dict_get d "due_date" (VStr ""))
          (dict_get d "id" VNone) in
      let task := assign task "completed" (dict_get d "completed" (VBool false)) in
      let task := assign task "created_at" (dict_get d "created_at" (VStr now_default)) in
      Ok task
  | _ => Raise TypeError
  end.

(** ** The [TaskManager] object *)

(** What [[os.path.exists]] and [[json.load]] can find at [[self.filename]]:
    no file, a text that [[json.load]] rejects with [[JSONDecodeError]], or
    the JSON text of a value.  [[json.dump]] followed by [[json.load]] gives
    back the dumped value, so the text is represented by the value itself.
    A file whose bytes are not text at all, and failures of the file system,
    are not among the cases. *)
Inductive file : Type :=
| Missing
| Malformed
| Json (v : value).

Record TaskManager : Type := mkManager {
  tasks : list Task;
  disk : file
}.

(** Methods of the manager read and write its state and may raise; what was
    written before an exception stays written. *)
Definition M (A : Type) : Type := TaskManager -> result A * TaskManager.

Definition ret {A : Type} (a : A) : M A := fun tm => (Ok a, tm).

Definition bind {A B : Type} (m : M A) (k : A -> M B) : M B :=
  fun tm =>
    match m tm with
    | (Ok a, tm') => k a tm'
    | (Raise e, tm') => (Raise e, tm')
    end.

Definition lift {A : Type} (r : result A) : M A := fun tm => (r, tm).

Definition get_tasks : M (list Task) := fun tm => (Ok (tasks tm), tm).

Definition set_tasks (ts : list Task) : M unit :=
  fun tm => (Ok tt, {| tasks := ts; disk := disk tm |}).

Definition write_file (v : value) : M unit :=
  fun tm => (Ok tt, {| tasks := tasks tm; disk := Json v |}).

Declare Scope manager_scope.
Delimit Scope manager_scope with manager.
Notation "x <- m ;; k" := (bind m (fun x => k))
  (at level 61, m at next level, right associativity) : manager_scope.

(** [[save_tasks]]: the list of dictionaries is built first, the file is
    opened and overwritten only afterwards. *)
Definition save_tasks : M unit :=
  (ts <- get_tasks ;;
   data <- lift (mapM to_dict ts) ;;
   write_file (VList data))%manager.

(** The loop of [[get_task]].  The object it returns is a reference into
    [[self.tasks]]; the reference is kept as the place of the object in the
    list: the records before it, the object, the records after it. *)
Fixpoint find_task (task_id : Z) (ts : list Task)
    : result (option (list Task * Task * list Task)) :=
  match ts with
  | [] => Ok None
  | task :: rest =>
      i <- getattr task "id" ;;
      if eq_int i task_id then Ok (Some ([], task, rest))
      else
        r <- find_task task_id rest ;;
        Ok (match r with
            | Some (before, found, after) => Some (task :: before, found, after)
            | None => None
            end)
  end.

Definition get_task (task_id : Z) : M (option Task) :=
  (ts <- get_tasks ;;
   r <- lift (find_task task_id ts) ;;
   ret (match r with
        | Some (_, task, _) => Some task
        | None => None
        end))%manager.

(** [[add_task]].  [self] and [now] are what [[id]] and the clock give to the
    constructor. *)
Definition add_task (self : Z) (now : string)
    (title description priority due_date : value) : M Task :=
  (let task := Task_init self now title description priority due_date VNone in
   ts <- get_tasks ;;
   _ <- set_tasks (ts ++ [task]) ;;
   _ <- save_tasks ;;
   ret task)%manager.

(** The loop of [[update_task]] over [[kwargs.items()]]; the object keeps
    what was set before an exception. *)
Fixpoint apply_kwargs (task : Task) (kwargs : dict) : Task * result unit :=
  match kwargs with
  | [] => (task, Ok tt)
  | (key, v) :: rest =>
      if hasattr task key then
        match setattr task key v with
        | Ok task' => apply_kwargs task' rest
        | Raise e => (task, Raise e)
        end
      else apply_kwargs task rest
  end.

Definition update_task (task_id : Z) (kwargs : dict) : M bool :=
  (ts <- get_tasks ;;
   r <- lift (find_task task_id ts) ;;
   match r with
   | None => ret false
   | Some (before, task, after) =>
       let (task', outcome) := apply_kwargs task kwargs in
       _ <- set_tasks (before ++ task' :: after) ;;
       _ <- lift outcome ;;
       _ <- save_tasks ;;
       ret true
   end)%manager.

(** [[delete_task]]: [[list.remove]] takes out the found object itself. *)
Definition delete_task (task_id : Z) : M bool :=
  (ts <- get_tasks ;;
   r <- lift (find_task task_id ts) ;;
   match r with
   | Some (before, _, after) =>
       _ <- set_tasks (before ++ after) ;;
       _ <- save_tasks ;;
       ret true
   | None => ret false
   end)%manager.

(** The common body of [[complete_task]] and [[uncomplete_task]]. *)
Definition set_completed (task_id : Z) (flag : bool) : M bool :=
  (ts <- get_tasks ;;
   r <- lift (find_task task_id ts) ;;
   match r with
   | Some (before, task, after) =>
       _ <- set_tasks (before ++ assign task "completed" (VBool flag) :: after) ;;
       _ <- save_tasks ;;
       ret true
   | None => ret false
   end)%manager.

Definition complete_task (task_id : Z) : M bool := set_completed task_id true.

Definition uncomplete_task (task_id : Z) : M bool := set_completed task_id false.

Definition is_pending (task : Task) : result bool :=
  c <- getattr task "completed" ;;
  Ok (negb (truthy c)).

Definition get_all_tasks (include_completed : bool) : M (list Task) :=
  (ts <- get_tasks ;;
   if include_completed then ret ts else lift (filterM is_pending ts))%manager.

Definition has_priority (priority : string) (task : Task) : result bool :=
  p <- getattr task "priority" ;;
  Ok (eq_str p priority).

Definition get_tasks_by_priority (priority : string) : M (list Task) :=
  (ts <- get_tasks ;;
   lift (filterM (has_priority priority) ts))%manager.

(** The test of [[search_tasks]]; [[or]] does not look at the description
    when the title already matches. *)
Definition matches (query : string) (task : Task) : result bool :=
  t <- getattr task "title" ;;
  tl <- value_lower t ;;
  if str_in query tl then Ok true
  else
    d <- getattr task "description" ;;
    dl <- value_lower d ;;
    Ok (str_in query dl).

Definition search_tasks (query : string) : M (list Task) :=
  (let query := lower query in
   ts <- get_tasks ;;
   lift (filterM (matches query) ts))%manager.

(** ** Loading *)

(** What the running interpreter supplies while one record is rebuilt: the
    identity of the new object and the two clock readings. *)
Record supply : Type := mkSupply {
  new_id : Z;
  now_init : string;
  now_default : string
}.

(** [[[Task.from_dict(task_data) for task_data in data]]]; the record at
    position [n] is built with [env n]. *)
Fixpoint from_dicts (env : nat -> supply) (n : nat) (data : list value)
    : result (list Task) :=
  match data with
  | [] => Ok []
  | task_data :: rest =>
      task <- from_dict (new_id (env n)) (now_init (env n))
                        (now_default (env n)) task_data ;;
      ts <- from_dicts env (S n) rest ;;
      Ok (task :: ts)
  end.

Definition path_exists (f : file) : bool :=
  match f with
  | Missing => false
  | _ => true
  end.

(** [[json.load(f)]] on a file that exists. *)
Definition json_load (f : file) : result value :=
  match f with
  | Json v => Ok v
  | _ => Raise JSONDecodeError
  end.

(** [[load_tasks]]: the handler names two exceptions, the others leave the
    method. *)
Definition load_tasks (env : nat -> supply) : M unit :=
  fun tm =>
    if path_exists (disk tm) then
      match (data <- json_load (disk tm) ;;
             items <- py_iter data ;;
             from_dicts env 0 items) with
      | Ok ts => set_tasks ts tm
      | Raise JSONDecodeError => set_tasks [] tm
      | Raise KeyError => set_tasks [] tm
      | Raise e => (Raise e, tm)
      end
    else set_tasks [] tm.

(** [[TaskManager.__init__]] over a given backing file. *)
Definition TaskManager_init (f : file) (env : nat -> supply)
    : result unit * TaskManager :=
  load_tasks env {| tasks := []; disk := f |}.

(** ** Statistics *)

(** [[task.priority == name and not task.completed]] *)
Definition pending_with (name : string) (task : Task) : result bool :=
  p <- getattr task "priority" ;;
  if eq_str p name then
    c <- getattr task "completed" ;;
    Ok (negb (truthy c))
  else Ok false.

Definition is_completed (task : Task) : result bool :=
  c <- getattr task "completed" ;;
  Ok (truthy c).

Definition get_statistics : M value :=
  (ts <- get_tasks ;;
   lift (let total := Z.of_nat (length ts) in
         (completed <- countM is_completed ts ;;
         let pending := total - completed in
         high <- countM (pending_with "High") ts ;;
         medium <- countM (pending_with "Medium") ts ;;
         low <- countM (pending_with "Low") ts ;;
         Ok (VDict [ ("total", VInt total);
                     ("completed", VInt completed);
                     ("pending", VInt pending);
                     ("priority_counts",
                      VDict [ ("High", VInt high);
                              ("Medium", VInt medium);
                              ("Low", VInt low) ]) ]))%result))%manager.

(** ** Vocabulary of the statements *)

(** The seven data attributes of a task, in the order [[to_dict]] lists
    them. *)
Definition fields : list string :=
  [ "id"; "title"; "description"; "priority"; "due_date"; "completed";
    "created_at" ].

(** A task record: the object carries the seven data attributes and its
    [[to_dict]] method is not hidden by an instance attribute. *)
Definition is_record (task : Task) : bool :=
  forallb (fun f => dict_has f (attrs task)) fields
  && negb (dict_has "to_dict" (attrs task)).

(** The record's [[id]] is set, that is, present and not [[None]]; the
    constructor never leaves it otherwise. *)
Definition has_id (task : Task) : bool :=
  match dict_find "id" (attrs task) with
  | Some VNone => false
  | Some _ => true
  | None => false
  end.

(** The seven attributes of a task as one dictionary. *)
Definition snapshot (task : Task) : dict :=
  map (fun f => (f, dict_get (attrs task) f VNone)) fields.

(** Equality field for field. *)
Definition same_fields (t1 t2 : Task) : Prop :=
  forall f, In f fields -> getattr t1 f = getattr t2 f.

(** The record has an id and that id does not equal [task_id]. *)
Definition unmatched (task_id : Z) (task : Task) : bool :=
  match dict_find "id" (attrs task) with
  | Some v => negb (eq_int v task_id)
  | None => false
  end.

(** The completed flag of a record, read as a condition. *)
Definition completed_flag (task : Task) : bool :=
  truthy (dict_get (attrs task) "completed" VNone).

(** The record's priority equals [name]. *)
Definition priority_is (name : string) (task : Task) : bool :=
  eq_str (dict_get (attrs task) "priority" VNone) name.

(** How many records satisfy [p]. *)
Definition count (p : Task -> bool) (ts : list Task) : Z :=
  Z.of_nat (length (filter p ts)).

(** A record that is not completed and has priority [name]. *)
Definition in_bucket (name : string) (task : Task) : bool :=
  negb (completed_flag task) && priority_is name task.

(** The dictionary [[get_statistics]] returns. *)
Definition summary (total completed pending high medium low : Z) : value :=
  VDict [ ("total", VInt total);
          ("completed", VInt completed);
          ("pending", VInt pending);
          ("priority_counts",
           VDict [ ("High", VInt high); ("Medium", VInt medium);
                   ("Low", VInt low) ]) ].

(** A text attribute of a record. *)
Definition text_of (name : string) (task : Task) : string :=
  match dict_find name (attrs task) with
  | Some (VStr s) => s
  | _ => ""
  end.

(** Title and description are both strings. *)
Definition has_texts (task : Task) : bool :=
  match dict_find "title" (attrs task), dict_find "description" (attrs task) with
  | Some (VStr _), Some (VStr _) => true
  | _, _ => false
  end.

(** [q] is a substring of [s]. *)
Definition occurs_in (q s : string) : Prop :=
  exists pre post, s = (pre ++ q ++ post)%string.

(** The ids of the held records, in order. *)
Definition ids_of (ts : list Task) : list (result value) :=
  map (fun t => getattr t "id") ts.

Definition created_of (ts : list Task) : list (result value) :=
  map (fun t => getattr t "created_at") ts.

(** [key] is one of the seven data attributes. *)
Definition is_field (key : string) : bool := existsb (String.eqb key) fields.

(** Every key of the mapping is a data attribute or names no attribute of
    the object at all. *)
Definition tame (task : Task) (kwargs : dict) : bool :=
  forallb (fun kv => is_field (fst kv) || negb (hasattr task (fst kv))) kwargs.

(** The value the mapping gives to [name]; were a key to occur twice, the
    later entry would count. *)
Fixpoint last_binding (name : string) (kwargs : dict) : option value :=
  match kwargs with
  | [] => None
  | (key, v) :: rest =>
      match last_binding name rest with
      | Some w => Some w
      | None => if String.eqb name key then Some v else None
      end
  end.

(** What the instance dictionary should hold under [name] after an update
    with [kwargs]: data attributes take the supplied value when there is
    one, everything else stays as it was. *)
Definition updated (task : Task) (kwargs : dict) (name : string) : option value :=
  if is_field name then
    match last_binding name kwargs with
    | Some v => Some v
    | None => dict_find name (attrs task)
    end
  else dict_find name (attrs task).

(** ** Sample data *)

(** An interpreter that hands out addresses sixteen bytes apart and whose
    clock stands still. *)
Definition demo_env : nat -> supply :=
  fun n => mkSupply (140000 + 16 * Z.of_nat n)
                    "2024-03-01 09:00:00" "2024-03-01 09:00:00".

(** A manager built without a backing file. *)
Definition empty_store : TaskManager := snd (TaskManager_init Missing demo_env).

(** Three tasks added in turn, the second completed right after it was
    added. *)
Definition demo_store : TaskManager :=
  let tm := empty_store in
  let tm := snd (add_task 16 "2024-03-01 09:00:00" (VStr "Buy milk") (VStr "")
                   (VStr "High") (VStr "") tm) in
  let tm := snd (add_task 32 "2024-03-01 09:00:05" (VStr "Write report")
                   (VStr "Quarterly numbers") (VStr "Medium") (VStr "") tm) in
  let tm := snd (complete_task 32 tm) in
  snd (add_task 48 "2024-03-01 09:00:09" (VStr "Walk dog") (VStr "")
         (VStr "Low") (VStr "2024-03-02") tm).

(** A mapping that names the two attributes the spec wants fixed. *)
Definition id_and_date : dict :=
  [("id", VInt 99); ("created_at", VStr "1999-12-31 23:59:59")].

(** The sample store after an update with that mapping. *)
Definition overwritten : TaskManager :=
  snd (update_task 16 id_and_date demo_store).

(** ** Runs of operations *)

(** The three mutating operations of the claim about ids, each with what
    its call receives; an add also receives the identity of the object it
    creates and the clock reading. *)
Inductive op : Type :=
| Add (self : Z) (now : string) (title description priority due_date : value)
| Update (task_id : Z) (kwargs : dict)
| Delete (task_id : Z).

(** The manager after one operation, whether it returned or raised. *)
Definition step (o : op) (tm : TaskManager) : TaskManager :=
  match o with
  | Add self now title description priority due_date =>
      snd (add_task self now title description priority due_date tm)
  | Update task_id kwargs => snd (update_task task_id kwargs tm)
  | Delete task_id => snd (delete_task task_id tm)
  end.

(** The managers met after each operation of a run. *)
Fixpoint states (ops : list op) (tm : TaskManager) : list TaskManager :=
  match ops with
  | [] => []
  | o :: rest => step o tm :: states rest (step o tm)
  end.

(** Every add of the run creates its object at an address where no held
    object lives, which is what [[id]] promises of objects alive together. *)
Fixpoint fresh_adds (ops : list op) (tm : TaskManager) : bool :=
  match ops with
  | [] => true
  | o :: rest =>
      match o with
      | Add self _ _ _ _ _ => negb (existsb (Z.eqb self) (map addr (tasks tm)))
      | _ => true
      end && fresh_adds rest (step o tm)
  end.

(** No update of the run names [[id]] or [[__dict__]]. *)
Definition keeps_ids (ops : list op) : bool :=
  forallb (fun o => match o with
                    | Update _ kwargs =>
                        negb (dict_has "id" kwargs)
                        && negb (dict_has "__dict__" kwargs)
                    | _ => true
                    end) ops.

(** The held objects are distinct objects and each record's id is the
    identity of its own object, as add leaves it. *)
Definition own_ids (ts : list Task) : Prop :=
  NoDup (map addr ts)
  /\ Forall (fun t => getattr t "id" = Ok (VInt (addr t))) ts.

(** A run that deletes a task and later creates one at the address the
    deleted object had. *)
Definition demo_run : list op :=
  [ Add 16 "2024-03-01 09:00:00" (VStr "Buy milk") (VStr "") (VStr "High") (VStr "");
    Add 32 "2024-03-01 09:00:05" (VStr "Write report") (VStr "") (VStr "Medium")
        (VStr "");
    Update 16 [("title", VStr "Buy oat milk"); ("colour", VStr "red")];
    Delete 16;
    Add 16 "2024-03-01 09:07:00" (VStr "Walk dog") (VStr "") (VStr "Low") (VStr "") ].

(** A run whose update gives the first task the id of the second. *)
Definition clash_run : list op :=
  [ Add 16 "2024-03-01 09:00:00" (VStr "Buy milk") (VStr "") (VStr "High") (VStr "");
    Add 32 "2024-03-01 09:00:05" (VStr "Write report") (VStr "") (VStr "Medium")
        (VStr "");
    Update 16 [("id", VInt 32)] ].

(** A run whose update replaces the instance dictionary of the first task
    by one that carries the id of the second. *)
Definition swap_run : list op :=
  [ Add 16 "2024-03-01 09:00:00" (VStr "Buy milk") (VStr "") (VStr "High") (VStr "");
    Add 32 "2024-03-01 09:00:05" (VStr "Write report") (VStr "") (VStr "Medium")
        (VStr "");
    Update 16 [("__dict__", VDict [("id", VInt 32); ("title", VStr "Buy milk")])] ].

(** A backing file written by an earlier process: one record whose id is the
    address its object had then. *)
Definition old_file : file :=
  Json (VList [ VDict [ ("id", VInt 139872); ("title", VStr "Old task");
                        ("description", VStr ""); ("priority", VStr "Low");
                        ("due_date", VStr ""); ("completed", VBool false);
                        ("created_at", VStr "2024-02-28 18:30:00") ] ]).

(** The manager built over that file. *)
Definition old_store : TaskManager := snd (TaskManager_init old_file demo_env).

(** An add whose new object lands at the address recorded in the file. *)
Definition reuse_run : list op :=
  [ Add 139872 "2024-03-01 09:00:00" (VStr "New task") (VStr "") (VStr "High")
        (VStr "") ].

(** The task that add creates there, and the manager after the add. *)
Definition new_task : Task :=
  Task_init 139872 "2024-03-01 09:00:00" (VStr "New task") (VStr "")
    (VStr "High") (VStr "") VNone.

Definition reused : TaskManager := last (states reuse_run old_store) old_store.

(** A mapping with a key that names nothing and a key that names a
    method. *)
Definition hiding : dict := [("colour", VStr "red"); ("to_dict", VInt 0)].

(** A backing file that is JSON but not a list of records throughout: a
    number, then a record without title. *)
Definition mixed_file : file :=
  Json (VList [ VInt 1; VDict [("description", VStr "no title")] ]).

(** [v] is a dictionary without the key [[title]]. *)
Definition untitled (v : value) : bool :=
  match v with
  | VDict d => negb (dict_has "title" d)
  | _ => false
  end.

Definition is_dict (v : value) : bool :=
  match v with
  | VDict _ => true
  | _ => false
  end.

(** ** Vocabulary of the further properties *)

(** The record has an id and that id equals [task_id]. *)
Definition answers (task_id : Z) (task : Task) : bool :=
  match dict_find "id" (attrs task) with
  | Some v => eq_int v task_id
  | None => false
  end.

(** What [[save_tasks]] writes for a list of records. *)
Definition saved (ts : list Task) : file :=
  Json (VList (map (fun t => VDict (snapshot t)) ts)).

(** The record is not completed, as [[not task.completed]] reads it. *)
Definition pending (task : Task) : bool := negb (completed_flag task).

(** The five mutating methods of the manager as one call; an add, which
    returns the new task, counts as [[True]]. *)
Inductive mutation : Type :=
| MAdd (self : Z) (now : string) (title description priority due_date : value)
| MUpdate (task_id : Z) (kwargs : dict)
| MDelete (task_id : Z)
| MComplete (task_id : Z)
| MUncomplete (task_id : Z).

Definition mutate (m : mutation) : M bool :=
  match m with
  | MAdd self now title description priority due_date =>
      (_ <- add_task self now title description priority due_date ;;
       ret true)%manager
  | MUpdate task_id kwargs => update_task task_id kwargs
  | MDelete task_id => delete_task task_id
  | MComplete task_id => complete_task task_id
  | MUncomplete task_id => uncomplete_task task_id
  end.

(** What a mutating call started in [tm] leaves behind when it returns.
    After [[True]] the file holds the dictionaries of the tasks now held;
    after [[False]] nothing has changed.  Of a call that raises nothing is
    said: an exception may also come from the writing itself, after the
    file was opened. *)
Definition in_step (tm : TaskManager) (r : result bool * TaskManager) : Prop :=
  match r with
  | (Ok true, tm') =>
      exists data,
        mapM to_dict (tasks tm') = Ok data /\ disk tm' = Json (VList data)
  | (Ok false, tm') => tm' = tm
  | (Raise _, _) => True
  end.

(** [v] is a dictionary with the key [[title]]. *)
Definition titled (v : value) : bool :=
  match v with
  | VDict d => dict_has "title" d
  | _ => false
  end.

(** [v] is a dictionary as [[to_dict]] builds it for a record whose id is
    set: the seven keys, in that order, and an id other than [[None]]. *)
Definition canonical (v : value) : bool :=
  match v with
  | VDict d =>
      (if list_eq_dec string_dec (map fst d) fields then true else false)
      && match dict_find "id" d with
         | Some VNone => false
         | _ => true
         end
  | _ => false
  end.

(** ** The command line: [[TodoCLI.add_task]] *)

(** The terminal: the lines still to be typed and what has been written,
    one entry for each [[print]] and each prompt. *)
Record console : Type := mkConsole {
  stdin : list string;
  stdout : list string
}.

(** How a method of the command line ends: it returns, an exception of the
    manager passes through it, or [[input]] finds the end of the input. *)
Inductive ending : Type :=
| Returns
| Raises (e : exn)
| RaisesEOFError.

Definition newline : string := String (ascii_of_nat 10) EmptyString.

Definition print (text : string) (c : console) : console :=
  {| stdin := stdin c; stdout := stdout c ++ [text] |}.

(** [[input(prompt)]]: the prompt is written, then a line is taken. *)
Definition input (prompt : string) (c : console) : option string * console :=
  match stdin c with
  | [] => (None, print prompt c)
  | line :: rest => (Some line, {| stdin := rest; stdout := stdout c ++ [prompt] |})
  end.

(** [[priority not in ['Low', 'Medium', 'High']]] *)
Definition invalid_priority (priority : string) : bool :=
  negb (existsb (String.eqb priority) ["Low"; "Medium"; "High"]).

Section CommandLine.

(** [[str.strip]] and the text an f-string makes of a value belong to the
    interpreter; the method is modelled over both. *)
Variable strip : string -> string.
Variable str : value -> string.

(** [[TodoCLI.add_task]]; [self] and [now] are what the manager's add
    receives from the interpreter. *)
Definition cli_add_task (self : Z) (now : string)
    (tm : TaskManager) (c : console) : ending * (TaskManager * console) :=
  let c := print (newline ++ "--- Add New Task ---") c in
  match input "Enter task title: " c with
  | (None, c) => (RaisesEOFError, (tm, c))
  | (Some line, c) =>
      let title := strip line in
      if String.eqb title "" then
        (Returns, (tm, print "❌ Task title cannot be empty!" c))
      else
        match input "Enter task description (optional): " c with
        | (None, c) => (RaisesEOFError, (tm, c))
        | (Some line, c) =>
            let description := strip line in
            let c := print (newline ++ "Priority levels: Low, Medium, High") c in
            match input "Enter priority (default: Medium): " c with
            | (None, c) => (RaisesEOFError, (tm, c))
            | (Some line, c) =>
                let priority :=
                  if String.eqb (strip line) "" then "Medium" else strip line in
                let (priority, c) :=
                  if invalid_priority priority
                  then ("Medium",
                        print "⚠️  Invalid priority. Setting to Medium." c)
                  else (priority, c) in
                match input "Enter due date (YYYY-MM-DD) (optional): " c with
                | (None, c) => (RaisesEOFError, (tm, c))
                | (Some line, c) =>
                    let due_date := strip line in
                    match add_task self now (VStr title) (VStr description)
                            (VStr priority) (VStr due_date) tm with
                    | (Raise e, tm) => (Raises e, (tm, c))
                    | (Ok task, tm) =>
                        match getattr task "id" with
                        | Raise e => (Raises e, (tm, c))
                        | Ok i =>
                            (Returns,
                             (tm, print ("✅ Task added successfully! ID: "
                                         ++ str i) c))
                        end
                    end
                end
            end
        end
  end.

End CommandLine.

(** A [[strip]] for ASCII text: blanks are the characters 9 to 13 and 28 to
    32. *)
Definition is_blank (a : ascii) : bool :=
  let n := nat_of_ascii a in
  (Nat.leb 9 n && Nat.leb n 13) || (Nat.leb 28 n && Nat.leb n 32).

Fixpoint lstrip (s : string) : string :=
  match s with
  | String a s' => if is_blank a then lstrip s' else s
  | EmptyString => EmptyString
  end.

Fixpoint rstrip (s : string) : string :=
  match s with
  | String a s' =>
      match rstrip s' with
      | EmptyString => if is_blank a then EmptyString else String a EmptyString
      | rest => String a rest
      end
  | EmptyString => EmptyString
  end.

Definition strip_ascii (s : string) : string := rstrip (lstrip s).

(** The text of an integer id; other values are not met in the samples. *)
Definition str_of_id (v : value) : string :=
  match v with
  | VInt z => NilZero.string_of_int (Z.to_int z)
  | _ => ""
  end.

(** The store that add, called from the command line with the texts given,
    could have been asked to extend [tm] to. *)
Definition added (tm : TaskManager) (self : Z) (now : string)
    (title description priority due_date : string) : list Task :=
  tasks tm ++ [Task_init self now (VStr title) (VStr description)
                 (VStr priority) (VStr due_date) VNone].

(** The priority the command line passes on for a typed text: the text if
    it is one of the three names, else [[Medium]]. *)
Definition passed_priority (text : string) : string :=
  if existsb (String.eqb text) ["Low"; "Medium"; "High"] then text else "Medium".

(** A terminal on which a task is typed with blanks around the title and a
    priority in the wrong letter case. *)
Definition demo_console : console :=
  {| stdin := ["  Call bank  "; ""; "high"; "2024-03-05"; "2"];
     stdout := [] |}.

(** The records of a file of which the second has no title. *)
Definition partly_untitled : list value :=
  [ VDict [("id", VInt 7); ("title", VStr "Pay rent")];
    VDict [("id", VInt 8); ("description", VStr "no title")];
    VDict [("id", VInt 9); ("title", VStr "Call bank")] ].

(** No key occurs twice, as in every mapping Python can pass through
    [[**kwargs]]. *)
Fixpoint distinct_keys (kwargs : dict) : bool :=
  match kwargs with
  | [] => true
  | (key, _) :: rest => negb (dict_has key rest) && distinct_keys rest
  end.

(** Every character of the text is an ASCII character; on such text
    [lower] is [[str.lower]]. *)
Definition ascii_text (s : string) : bool :=
  forallb (fun a => Nat.ltb (nat_of_ascii a) 128) (list_ascii_of_string s).

(** Title and description of the record are ASCII text. *)
Definition ascii_texts (task : Task) : bool :=
  ascii_text (text_of "title" task) && ascii_text (text_of "description" task).

(** * Properties *)

(** ** Dictionaries *)

Lemma dict_find_set_same (k : string) (v : value) (d : dict) :
  dict_find k (dict_set k v d) = Some v.
Proof.
  induction d as [|[k' v'] d IH]; simpl.
  - now rewrite String.eqb_refl.
  - destruct (String.eqb k k') eqn:E; simpl; rewrite E; auto.
Qed.

Lemma dict_find_set_other (k k' : string) (v : value) (d : dict) :
  k <> k' -> dict_find k (dict_set k' v d) = dict_find k d.
Proof.
  intros Hne. induction d as [|[k0 v0] d IH]; simpl.
  - destruct (String.eqb_spec k k'); congruence.
  - destruct (String.eqb_spec k' k0) as [->|Hk]; simpl.
    + destruct (String.eqb_spec k k0); congruence.
    + destruct (String.eqb_spec k k0); auto.
Qed.

Lemma dict_has_true (k : string) (d : dict) :
  dict_has k d = true -> exists v, dict_find k d = Some v.
Proof.
  unfold dict_has. destruct (dict_find k d); [eauto | discriminate].
Qed.

Lemma dict_has_false (k : string) (d : dict) :
  dict_has k d = false -> dict_find k d = None.
Proof.
  unfold dict_has. destruct (dict_find k d); [discriminate | reflexivity].
Qed.

(** ** Records *)

(** What [is_record] gives, attribute by attribute. *)
Lemma is_record_inv (task : Task) :
  is_record task = true ->
  (forall f, In f fields -> exists v, dict_find f (attrs task) = Some v)
  /\ dict_find "to_dict" (attrs task) = None.
Proof.
  unfold is_record. rewrite andb_true_iff, forallb_forall, negb_true_iff.
  intros [Hall Hno]. split.
  - intros f Hf. apply dict_has_true. now apply Hall.
  - now apply dict_has_false.
Qed.

Lemma getattr_record (task : Task) (f : string) :
  is_record task = true -> In f fields ->
  getattr task f = Ok (dict_get (attrs task) f VNone).
Proof.
  intros Hr Hf. destruct (is_record_inv task Hr) as [Hall _].
  destruct (Hall f Hf) as [v Hv]. unfold getattr, dict_get. now rewrite Hv.
Qed.

Ltac in_fields := unfold fields; simpl; tauto.

Lemma to_dict_record (task : Task) :
  is_record task = true -> to_dict task = Ok (VDict (snapshot task)).
Proof.
  intros Hr. unfold to_dict.
  destruct (is_record_inv task Hr) as [_ ->].
  repeat (rewrite getattr_record by (assumption || in_fields); simpl).
  reflexivity.
Qed.

Lemma from_dict_snapshot (self : Z) (now1 now2 : string) (task : Task) :
  has_id task = true ->
  from_dict self now1 now2 (VDict (snapshot task))
  = Ok {| addr := self; attrs := snapshot task |}.
Proof.
  unfold has_id, snapshot, dict_get. intros Hid. cbn.
  destruct (dict_find "id" (attrs task)) as [[]|]; try discriminate; reflexivity.
Qed.

Lemma same_fields_snapshot (self : Z) (task : Task) :
  is_record task = true ->
  same_fields task {| addr := self; attrs := snapshot task |}.
Proof.
  intros Hr f Hf. rewrite (getattr_record task f Hr Hf).
  unfold fields in Hf. simpl in Hf.
  repeat (destruct Hf as [<-|Hf]; [reflexivity|]). contradiction.
Qed.

(** What the class builds is a record with its id set, whether through the
    constructor or through [[from_dict]]. *)
Lemma Task_init_record (self : Z) (now : string)
    (title description priority due_date task_id : value) :
  let task := Task_init self now title description priority due_date task_id in
  is_record task = true /\ has_id task = true.
Proof. split; [reflexivity|]. now destruct task_id. Qed.

Lemma from_dict_record (self : Z) (now1 now2 : string) (data : value)
    (task : Task) :
  from_dict self now1 now2 data = Ok task ->
  is_record task = true /\ has_id task = true.
Proof.
  unfold from_dict. destruct data as [| | | | |d]; try discriminate.
  unfold subscript. destruct (dict_find "title" d); [|discriminate].
  cbn [rbind]. intros H. injection H as <-. split; [reflexivity|].
  unfold has_id. cbn. now destruct (dict_get d "id" VNone).
Qed.

Lemma from_dicts_records (env : nat -> supply) (data : list value) :
  forall n ts,
    from_dicts env n data = Ok ts ->
    forallb (fun t => is_record t && has_id t) ts = true.
Proof.
  induction data as [|v data IH]; intros n ts; cbn [from_dicts].
  - intros H. injection H as <-. reflexivity.
  - destruct (from_dict _ _ _ v) as [task|e] eqn:Ev; [|discriminate].
    cbn [rbind]. destruct (from_dicts env (S n) data) as [ts'|e] eqn:Ets;
      [|discriminate].
    cbn [rbind]. intros H. injection H as <-. cbn [forallb].
    destruct (from_dict_record _ _ _ _ _ Ev) as [-> ->].
    now rewrite (IH _ _ Ets).
Qed.

(** Every manager, however its file looked, starts with records. *)
Lemma load_records (f : file) (env : nat -> supply) :
  forallb (fun t => is_record t && has_id t)
          (tasks (snd (TaskManager_init f env))) = true.
Proof.
  unfold TaskManager_init, load_tasks. cbn [disk].
  destruct (path_exists f); [|reflexivity].
  destruct (data <- json_load f ;; items <- py_iter data ;; from_dicts env 0 items)
    as [ts|e] eqn:E.
  - cbn [set_tasks snd tasks].
    destruct (json_load f) as [data|]; [|discriminate]. cbn [rbind] in E.
    destruct (py_iter data) as [items|]; [|discriminate]. cbn [rbind] in E.
    now apply from_dicts_records in E.
  - now destruct e.
Qed.

(** ** Persist, then load *)

Lemma mapM_to_dict_records (ts : list Task) :
  forallb is_record ts = true ->
  mapM to_dict ts = Ok (map (fun t => VDict (snapshot t)) ts).
Proof.
  induction ts as [|t ts IH]; simpl; [reflexivity|].
  rewrite andb_true_iff. intros [Ht Hts].
  now rewrite (to_dict_record t Ht), (IH Hts).
Qed.

Lemma from_dicts_snapshots (env : nat -> supply) (ts : list Task) :
  forall n,
    forallb has_id ts = true ->
    exists ts',
      from_dicts env n (map (fun t => VDict (snapshot t)) ts) = Ok ts'
      /\ Forall2 (fun t t' => attrs t' = snapshot t) ts ts'.
Proof.
  induction ts as [|t ts IH]; intros n; cbn [map forallb from_dicts].
  - intros _. exists []. split; [reflexivity | constructor].
  - rewrite andb_true_iff. intros [Ht Hts].
    destruct (IH (S n) Hts) as (ts' & Hts' & Hall).
    rewrite (from_dict_snapshot _ _ _ t Ht). cbn [rbind]. rewrite Hts'.
    eexists. split; [reflexivity|]. constructor; [reflexivity | assumption].
Qed.

Lemma forallb_andb {A : Type} (p q : A -> bool) (xs : list A) :
  forallb (fun x => p x && q x) xs = true ->
  forallb p xs = true /\ forallb q xs = true.
Proof.
  induction xs as [|x xs IH]; simpl; [auto|].
  rewrite !andb_true_iff. intros [[Hp Hq] Hxs].
  destruct (IH Hxs). auto.
Qed.

Lemma same_fields_rebuilt (ts ts' : list Task) :
  forallb is_record ts = true ->
  Forall2 (fun t t' => attrs t' = snapshot t) ts ts' ->
  Forall2 same_fields ts ts'.
Proof.
  intros Hrec Hall. induction Hall as [|t t' ts ts' Ht _ IH].
  - constructor.
  - simpl in Hrec. apply andb_true_iff in Hrec. destruct Hrec as [Hr Hrs].
    constructor; [|now apply IH].
    destruct t' as [a' at']. simpl in Ht. subst at'.
    now apply same_fields_snapshot.
Qed.

(** C3.  Saving a collection of task records, each with its id set, and
    then building a manager over the file just written yields, record by
    record and in the same order, tasks whose seven attributes equal those
    held before saving. *)
Theorem save_load_roundtrip (tm : TaskManager) (env : nat -> supply) :
  forallb (fun t => is_record t && has_id t) (tasks tm) = true ->
  exists saved loaded,
    save_tasks tm = (Ok tt, saved)
    /\ tasks saved = tasks tm
    /\ TaskManager_init (disk saved) env = (Ok tt, loaded)
    /\ Forall2 same_fields (tasks tm) (tasks loaded).
Proof.
  intros H. apply forallb_andb in H. destruct H as [Hrec Hid].
  destruct (from_dicts_snapshots env (tasks tm) 0%nat Hid) as (ts' & Hload & Hall).
  exists {| tasks := tasks tm;
            disk := Json (VList (map (fun t => VDict (snapshot t)) (tasks tm))) |}.
  exists {| tasks := ts';
            disk := Json (VList (map (fun t => VDict (snapshot t)) (tasks tm))) |}.
  repeat split.
  - unfold save_tasks, bind, get_tasks, lift, write_file.
    now rewrite (mapM_to_dict_records _ Hrec).
  - unfold TaskManager_init, load_tasks. simpl. rewrite Hload. reflexivity.
  - simpl. now apply same_fields_rebuilt.
Qed.

(** The round trip on the three sample tasks. *)
Lemma save_load_roundtrip_witness :
  forallb (fun t => is_record t && has_id t) (tasks demo_store) = true
  /\ exists saved loaded,
       save_tasks demo_store = (Ok tt, saved)
       /\ tasks saved = tasks demo_store
       /\ TaskManager_init (disk saved) demo_env = (Ok tt, loaded)
       /\ Forall2 same_fields (tasks demo_store) (tasks loaded).
Proof.
  split; [reflexivity|].
  apply (save_load_roundtrip demo_store demo_env). reflexivity.
Defined.

(** ** Loading one record *)

Lemma getattr_assign_same (task : Task) (name : string) (v : value) :
  getattr (assign task name v) name = Ok v.
Proof. unfold getattr, assign. simpl. now rewrite dict_find_set_same. Qed.

Lemma getattr_assign_other (task : Task) (name name' : string) (v : value) :
  name <> name' -> getattr (assign task name' v) name = getattr task name.
Proof.
  intros H. unfold getattr, assign. simpl. now rewrite dict_find_set_other.
Qed.

(** C8.  A dictionary that has a title loads into a task; each of
    description, priority, due_date, completed and created_at is the
    dictionary's entry when there is one and otherwise the default: the
    empty string, [[Medium]], the empty string, [[False]], the clock
    reading.  An id in the dictionary, other than [[None]], is taken as it
    stands. *)
Theorem from_dict_defaults (self : Z) (now1 now2 : string) (d : dict)
    (title : value) :
  dict_find "title" d = Some title ->
  exists task,
    from_dict self now1 now2 (VDict d) = Ok task
    /\ getattr task "title" = Ok title
    /\ (forall f dflt,
          In (f, dflt) [ ("description", VStr ""); ("priority", VStr "Medium");
                         ("due_date", VStr ""); ("completed", VBool false);
                         ("created_at", VStr now2) ] ->
          (dict_find f d = None -> getattr task f = Ok dflt)
          /\ (forall v, dict_find f d = Some v -> getattr task f = Ok v))
    /\ (forall v, dict_find "id" d = Some v -> v <> VNone ->
                  getattr task "id" = Ok v).
Proof.
  intros Ht. unfold from_dict, subscript. rewrite Ht. cbn [rbind].
  eexists. split; [reflexivity|]. split; [reflexivity|]. split.
  - intros f dflt Hin. simpl in Hin. unfold dict_get.
    repeat (destruct Hin as [Hin|Hin];
            [injection Hin as <- <-; split; [intros ->|intros v ->]; reflexivity|]).
    contradiction.
  - intros v Hv Hnone. unfold dict_get. rewrite Hv.
    destruct v; try reflexivity. congruence.
Qed.

(** A stored record without priority loads with priority [[Medium]]. *)
Lemma from_dict_defaults_witness :
  dict_find "title" [("id", VInt 7); ("title", VStr "Buy milk")]
  = Some (VStr "Buy milk")
  /\ exists task,
       from_dict 140000 "t1" "t2" (VDict [("id", VInt 7); ("title", VStr "Buy milk")])
       = Ok task
       /\ getattr task "priority" = Ok (VStr "Medium")
       /\ getattr task "id" = Ok (VInt 7).
Proof.
  split; [reflexivity|].
  destruct (from_dict_defaults 140000 "t1" "t2"
              [("id", VInt 7); ("title", VStr "Buy milk")] (VStr "Buy milk")
              eq_refl) as (task & Hload & _ & Hdef & Hid).
  exists task. split; [exact Hload|]. split.
  - destruct (Hdef "priority" (VStr "Medium")) as [Habsent _];
      [simpl; tauto | apply Habsent; reflexivity].
  - apply (Hid (VInt 7)); [reflexivity | discriminate].
Defined.

(** ** An id nobody has *)

Lemma find_task_unmatched (task_id : Z) (ts : list Task) :
  forallb (unmatched task_id) ts = true -> find_task task_id ts = Ok None.
Proof.
  induction ts as [|t ts IH]; simpl; [reflexivity|].
  rewrite andb_true_iff. intros [Ht Hts]. unfold unmatched in Ht.
  unfold getattr. destruct (dict_find "id" (attrs t)) as [v|]; [|discriminate].
  simpl. apply negb_true_iff in Ht. rewrite Ht, (IH Hts). reflexivity.
Qed.

(** C5.  When every held record has an id and none has the given one, get
    finds nothing and update, delete, complete and uncomplete return
    [[False]]; each leaves the task list and the backing file as they
    were. *)
Theorem not_found_no_effect (tm : TaskManager) (task_id : Z) (kwargs : dict) :
  forallb (unmatched task_id) (tasks tm) = true ->
  get_task task_id tm = (Ok None, tm)
  /\ update_task task_id kwargs tm = (Ok false, tm)
  /\ delete_task task_id tm = (Ok false, tm)
  /\ complete_task task_id tm = (Ok false, tm)
  /\ uncomplete_task task_id tm = (Ok false, tm).
Proof.
  intros H. apply find_task_unmatched in H.
  unfold get_task, update_task, delete_task, complete_task, uncomplete_task,
    set_completed, bind, get_tasks, lift, ret.
  rewrite H. repeat split.
Qed.

Lemma not_found_no_effect_witness :
  forallb (unmatched 99) (tasks demo_store) = true
  /\ get_task 99 demo_store = (Ok None, demo_store)
  /\ update_task 99 [("title", VStr "x")] demo_store = (Ok false, demo_store)
  /\ delete_task 99 demo_store = (Ok false, demo_store)
  /\ complete_task 99 demo_store = (Ok false, demo_store)
  /\ uncomplete_task 99 demo_store = (Ok false, demo_store).
Proof.
  split; [reflexivity|].
  apply (not_found_no_effect demo_store 99 [("title", VStr "x")]). reflexivity.
Defined.

(** ** Statistics *)

Lemma count_cons (p : Task -> bool) (t : Task) (ts : list Task) :
  count p (t :: ts) = (if p t then 1 else 0) + count p ts.
Proof.
  unfold count. simpl. destruct (p t); simpl length; lia.
Qed.

(** A counting loop whose test never raises counts what the test selects. *)
Lemma countM_count (p : Task -> result bool) (q : Task -> bool) (ts : list Task) :
  (forall t, In t ts -> p t = Ok (q t)) ->
  countM p ts = Ok (count q ts).
Proof.
  induction ts as [|t ts IH]; intros H.
  - reflexivity.
  - cbn [countM]. rewrite (H t (or_introl eq_refl)). cbn [rbind].
    rewrite IH by (intros t' Ht'; apply H; now right). cbn [rbind].
    rewrite count_cons. destruct (q t); reflexivity.
Qed.

Lemma count_complement (p : Task -> bool) (ts : list Task) :
  Z.of_nat (length ts) - count p ts = count (fun t => negb (p t)) ts.
Proof.
  induction ts as [|t ts IH].
  - reflexivity.
  - rewrite !count_cons. cbn [length]. rewrite Nat2Z.inj_succ.
    destruct (p t); simpl negb; cbv iota; lia.
Qed.

Lemma is_completed_record (t : Task) :
  is_record t = true -> is_completed t = Ok (completed_flag t).
Proof.
  intros Hr. unfold is_completed, completed_flag.
  now rewrite (getattr_record t "completed" Hr) by in_fields.
Qed.

Lemma pending_with_record (name : string) (t : Task) :
  is_record t = true -> pending_with name t = Ok (in_bucket name t).
Proof.
  intros Hr. unfold pending_with, in_bucket, priority_is, completed_flag.
  rewrite (getattr_record t "priority" Hr) by in_fields. cbn [rbind].
  destruct (eq_str _ name).
  - rewrite (getattr_record t "completed" Hr) by in_fields. cbn [rbind].
    now rewrite andb_true_r.
  - now rewrite andb_false_r.
Qed.

Lemma eq_str_true (v : value) (s : string) :
  eq_str v s = true -> v = VStr s.
Proof.
  destruct v; simpl; try discriminate.
  intros H. apply String.eqb_eq in H. now subst.
Qed.

(** The three buckets are disjoint: together they count the pending records
    whose priority is one of the three names. *)
Lemma buckets_sum (ts : list Task) :
  count (in_bucket "High") ts + count (in_bucket "Medium") ts
  + count (in_bucket "Low") ts
  = count (fun t => negb (completed_flag t)
                    && (priority_is "High" t || priority_is "Medium" t
                        || priority_is "Low" t)) ts.
Proof.
  induction ts as [|t ts IH].
  - reflexivity.
  - rewrite !count_cons, <- IH. clear IH.
    set (h := count _ ts). set (m := count _ ts). set (l := count _ ts).
    clearbody h m l. unfold in_bucket.
    destruct (completed_flag t); simpl negb; cbn [andb]; [lia|].
    unfold priority_is.
    destruct (eq_str _ "High") eqn:EH; destruct (eq_str _ "Medium") eqn:EM;
      destruct (eq_str _ "Low") eqn:EL; cbn [orb]; try lia;
      apply eq_str_true in EH || apply eq_str_true in EM;
      (rewrite EH in * || rewrite EM in *); discriminate.
Qed.

(** C6.  On a store of task records the statistics are: the number of
    records, the number of completed ones, the number of those not
    completed, and for each of High, Medium and Low the number of records
    that are not completed and have that priority.  A record with another
    priority enters no bucket: the three buckets add up to the pending
    records whose priority is one of the three. *)
Theorem get_statistics_counts (tm : TaskManager) :
  forallb is_record (tasks tm) = true ->
  get_statistics tm
  = (Ok (summary (Z.of_nat (length (tasks tm)))
                 (count completed_flag (tasks tm))
                 (count (fun t => negb (completed_flag t)) (tasks tm))
                 (count (in_bucket "High") (tasks tm))
                 (count (in_bucket "Medium") (tasks tm))
                 (count (in_bucket "Low") (tasks tm))),
     tm)
  /\ count (in_bucket "High") (tasks tm) + count (in_bucket "Medium") (tasks tm)
     + count (in_bucket "Low") (tasks tm)
     = count (fun t => negb (completed_flag t)
                       && (priority_is "High" t || priority_is "Medium" t
                           || priority_is "Low" t)) (tasks tm).
Proof.
  intros H. split; [|apply buckets_sum].
  assert (Hall : forall t, In t (tasks tm) -> is_record t = true)
    by now apply forallb_forall.
  unfold get_statistics, bind, get_tasks, lift.
  rewrite (countM_count is_completed completed_flag)
    by (intros t Ht; apply is_completed_record; auto).
  cbn [rbind].
  rewrite !(countM_count (pending_with _) (in_bucket _))
    by (intros t Ht; apply pending_with_record; auto).
  cbn [rbind]. rewrite count_complement. reflexivity.
Qed.

(** Three tasks, High, Medium (completed) and Low: total 3, completed 1,
    pending 2, buckets 1, 0 and 1. *)
Lemma get_statistics_counts_witness :
  forallb is_record (tasks demo_store) = true
  /\ get_statistics demo_store = (Ok (summary 3 1 2 1 0 1), demo_store).
Proof.
  split; [reflexivity|].
  destruct (get_statistics_counts demo_store eq_refl) as [Hstats _].
  exact Hstats.
Defined.

(** ** Search *)

Lemma prefix_spec (q s : string) :
  String.prefix q s = true <-> exists post, s = (q ++ post)%string.
Proof.
  revert s. induction q as [|c q IH]; intros s.
  - split; [intros _; now exists s | intros _; destruct s; reflexivity].
  - destruct s as [|c' s]; simpl.
    + split; [discriminate | intros [post H]; discriminate].
    + destruct (Ascii.ascii_dec c c') as [->|Hne].
      * rewrite IH. split; intros [post H]; exists post.
        -- now rewrite H.
        -- now injection H.
      * split; [discriminate|]. intros [post H]. injection H as H1 H2.
        congruence.
Qed.

Lemma str_in_unfold (q s : string) :
  str_in q s
  = if String.prefix q s then true
    else match s with
         | EmptyString => false
         | String _ s' => str_in q s'
         end.
Proof. destruct s; reflexivity. Qed.

(** The loop of the [[in]] operator decides the substring relation. *)
Lemma str_in_spec (q s : string) :
  str_in q s = true <-> occurs_in q s.
Proof.
  split.
  - induction s as [|c s IH]; rewrite str_in_unfold;
      destruct (String.prefix q _) eqn:E.
    + intros _. apply prefix_spec in E. destruct E as [post ->].
      now exists EmptyString, post.
    + discriminate.
    + intros _. apply prefix_spec in E. destruct E as [post ->].
      now exists EmptyString, post.
    + intros H. destruct (IH H) as (pre & post & ->).
      now exists (String c pre), post.
  - intros (pre & post & ->). induction pre as [|c pre IH].
    + rewrite str_in_unfold.
      replace (String.prefix q (EmptyString ++ q ++ post)%string) with true;
        [reflexivity|].
      symmetry. apply prefix_spec. now exists post.
    + rewrite str_in_unfold. simpl String.append.
      destruct (String.prefix q _); [reflexivity | exact IH].
Qed.

Lemma matches_texts (q : string) (t : Task) :
  has_texts t = true ->
  matches q t
  = Ok (str_in q (lower (text_of "title" t))
        || str_in q (lower (text_of "description" t))).
Proof.
  unfold has_texts, matches, text_of, getattr.
  destruct (dict_find "title" (attrs t)) as [[| | |a| |]|]; try discriminate.
  destruct (dict_find "description" (attrs t)) as [[| | |b| |]|];
    try discriminate.
  intros _. simpl. now destruct (str_in q (lower a)).
Qed.

Lemma filterM_filter (p : Task -> result bool) (q : Task -> bool)
    (ts : list Task) :
  (forall t, In t ts -> p t = Ok (q t)) ->
  filterM p ts = Ok (filter q ts).
Proof.
  induction ts as [|t ts IH]; intros H.
  - reflexivity.
  - cbn [filterM filter]. rewrite (H t (or_introl eq_refl)). cbn [rbind].
    rewrite IH by (intros t' Ht'; apply H; now right). reflexivity.
Qed.

Lemma filter_all {A : Type} (p : A -> bool) (xs : list A) :
  (forall x, p x = true) -> filter p xs = xs.
Proof.
  intros H. induction xs as [|x xs IH]; simpl; [reflexivity|].
  now rewrite H, IH.
Qed.

(** C7.  On a store whose titles and descriptions are strings, search
    returns the held records, in their order, for which the lower-cased
    query is a substring of the lower-cased title or of the lower-cased
    description; the empty query returns every record. *)
Theorem search_tasks_spec (tm : TaskManager) (query : string) :
  forallb has_texts (tasks tm) = true ->
  exists sel,
    search_tasks query tm = (Ok (filter sel (tasks tm)), tm)
    /\ (forall t,
          sel t = true <->
          occurs_in (lower query) (lower (text_of "title" t))
          \/ occurs_in (lower query) (lower (text_of "description" t)))
    /\ (query = "" -> filter sel (tasks tm) = tasks tm).
Proof.
  intros H.
  exists (fun t => str_in (lower query) (lower (text_of "title" t))
                   || str_in (lower query) (lower (text_of "description" t))).
  split; [|split].
  - unfold search_tasks, bind, get_tasks, lift.
    rewrite (filterM_filter _ _ (tasks tm)
               (fun t Ht => matches_texts (lower query) t
                              (proj1 (forallb_forall _ _) H t Ht))).
    reflexivity.
  - intros t. now rewrite orb_true_iff, !str_in_spec.
  - intros ->. apply filter_all. intros t. simpl lower.
    rewrite str_in_unfold. now destruct (lower (text_of "title" t)).
Qed.

(** Searching the three sample tasks for MILK finds the first one only. *)
Lemma search_tasks_spec_witness :
  forallb has_texts (tasks demo_store) = true
  /\ exists sel,
       search_tasks "MILK" demo_store = (Ok (filter sel (tasks demo_store)), demo_store)
       /\ (forall t,
             sel t = true <->
             occurs_in (lower "MILK") (lower (text_of "title" t))
             \/ occurs_in (lower "MILK") (lower (text_of "description" t)))
       /\ ("MILK" = "" -> filter sel (tasks demo_store) = tasks demo_store).
Proof.
  split; [reflexivity|].
  apply (search_tasks_spec demo_store "MILK"). reflexivity.
Defined.

(** ** Update *)

(** [[get_task]] finds a record where it is held. *)
Lemma find_task_split (task_id : Z) (ts before after : list Task) (task : Task) :
  find_task task_id ts = Ok (Some (before, task, after)) ->
  ts = before ++ task :: after.
Proof.
  revert before. induction ts as [|t ts IH]; intros before; simpl.
  - discriminate.
  - destruct (getattr t "id") as [i|e]; simpl; [|discriminate].
    destruct (eq_int i task_id).
    + intros H. injection H as <- <- <-. reflexivity.
    + destruct (find_task task_id ts) as [[[[b f] a]|]|e]; simpl;
        try discriminate.
      intros H. injection H as <- <- <-. simpl. f_equal. now apply IH.
Qed.

Lemma tasks_save_tasks (tm : TaskManager) :
  tasks (snd (save_tasks tm)) = tasks tm.
Proof.
  unfold save_tasks, bind, get_tasks, lift, write_file.
  destruct (mapM to_dict (tasks tm)); reflexivity.
Qed.

(** Whatever its outcome, update leaves in memory the object as the loop
    over the mapping left it, at the place where it was found. *)
Lemma tasks_update_task (tm : TaskManager) (task_id : Z) (kwargs : dict)
    (before after : list Task) (task : Task) :
  find_task task_id (tasks tm) = Ok (Some (before, task, after)) ->
  tasks (snd (update_task task_id kwargs tm))
  = before ++ fst (apply_kwargs task kwargs) :: after.
Proof.
  intros H. unfold update_task, bind, get_tasks, lift. rewrite H.
  destruct (apply_kwargs task kwargs) as [task' [[]|e]]; simpl; [|reflexivity].
  unfold set_tasks, ret.
  match goal with
  | |- context [save_tasks ?s] =>
      pose proof (tasks_save_tasks s) as Hs; destruct (save_tasks s) as [[[]|e] s']
  end; simpl in *; exact Hs.
Qed.

Lemma dict_has_cons_false (name key : string) (v : value) (rest : dict) :
  dict_has name ((key, v) :: rest) = false ->
  name <> key /\ dict_has name rest = false.
Proof.
  unfold dict_has. simpl. destruct (String.eqb_spec name key); [discriminate|].
  auto.
Qed.

(** The loop touches neither the identity of the object nor an attribute
    the mapping does not name, as long as [[__dict__]] is not assigned. *)
Lemma apply_kwargs_frame (name : string) (kwargs : dict) :
  forall task,
    dict_has "__dict__" kwargs = false ->
    dict_has name kwargs = false ->
    addr (fst (apply_kwargs task kwargs)) = addr task
    /\ getattr (fst (apply_kwargs task kwargs)) name = getattr task name.
Proof.
  induction kwargs as [|[key v] rest IH]; intros task Hd Hn; simpl.
  - auto.
  - apply dict_has_cons_false in Hd. destruct Hd as [Hd Hd'].
    apply dict_has_cons_false in Hn. destruct Hn as [Hn Hn'].
    destruct (hasattr task key); [|now apply IH].
    unfold setattr.
    destruct (String.eqb key "__class__"); [simpl; auto|].
    destruct (String.eqb key "__weakref__"); [simpl; auto|].
    destruct (String.eqb_spec key "__dict__"); [congruence|].
    destruct (IH (assign task key v) Hd' Hn') as [Ha Hg].
    rewrite Ha, Hg. split; [reflexivity|].
    now apply getattr_assign_other.
Qed.

(** C1, as the code has it.  Update leaves the id and created_at of the
    record it finds unchanged when the mapping names none of [[id]],
    [[created_at]] and [[__dict__]]; an entry for [[id]] or [[created_at]]
    is written to the record like any other attribute. *)
Theorem update_task_keeps_id (tm : TaskManager) (task_id : Z) (kwargs : dict)
    (before after : list Task) (task : Task) :
  find_task task_id (tasks tm) = Ok (Some (before, task, after)) ->
  (dict_has "id" kwargs = false ->
   dict_has "created_at" kwargs = false ->
   dict_has "__dict__" kwargs = false ->
   exists task',
     tasks (snd (update_task task_id kwargs tm)) = before ++ task' :: after
     /\ getattr task' "id" = getattr task "id"
     /\ getattr task' "created_at" = getattr task "created_at")
  /\ (forall name v,
        name = "id" \/ name = "created_at" ->
        dict_has name (attrs task) = true ->
        tasks (snd (update_task task_id [(name, v)] tm))
        = before ++ assign task name v :: after).
Proof.
  intros Hfind. split.
  - intros Hi Hc Hd. exists (fst (apply_kwargs task kwargs)).
    split; [now apply tasks_update_task|].
    split; now apply apply_kwargs_frame.
  - intros name v Hname Hhas.
    rewrite (tasks_update_task tm task_id _ before after task Hfind).
    simpl. unfold hasattr. rewrite Hhas. simpl.
    destruct Hname as [-> | ->]; reflexivity.
Qed.

Lemma update_task_keeps_id_witness :
  find_task 32 (tasks demo_store)
  = Ok (Some (firstn 1 (tasks demo_store), nth 1 (tasks demo_store) (mkTask 0 []),
              skipn 2 (tasks demo_store)))
  /\ exists task',
       tasks (snd (update_task 32 [("title", VStr "Write memo"); ("colour", VStr "red")]
                     demo_store))
       = firstn 1 (tasks demo_store) ++ task' :: skipn 2 (tasks demo_store)
       /\ getattr task' "id" = Ok (VInt 32)
       /\ getattr task' "created_at" = Ok (VStr "2024-03-01 09:00:05").
Proof.
  split; [reflexivity|].
  destruct (update_task_keeps_id demo_store 32
              [("title", VStr "Write memo"); ("colour", VStr "red")]
              (firstn 1 (tasks demo_store)) (skipn 2 (tasks demo_store))
              (nth 1 (tasks demo_store) (mkTask 0 [])) eq_refl) as [Hkeep _].
  destruct (Hkeep eq_refl eq_refl eq_refl) as (task' & Htasks & Hid & Hcreated).
  exists task'. split; [exact Htasks|]. split; [exact Hid | exact Hcreated].
Defined.

(** Counterexample to C1 as stated: a mapping that names [[id]] and
    [[created_at]] replaces both in the record with id 16, and a mapping
    that names [[__dict__]] replaces every attribute of the record at once,
    the id included. *)
Lemma update_task_overwrites_id :
  (fst (update_task 16 id_and_date demo_store) = Ok true
   /\ ids_of (tasks demo_store) = [Ok (VInt 16); Ok (VInt 32); Ok (VInt 48)]
   /\ ids_of (tasks overwritten) = [Ok (VInt 99); Ok (VInt 32); Ok (VInt 48)]
   /\ ids_of (tasks overwritten) <> ids_of (tasks demo_store)
   /\ created_of (tasks overwritten) <> created_of (tasks demo_store))
  /\ ids_of (tasks (snd (update_task 16 [("__dict__", VDict [("id", VInt 99)])]
                           demo_store)))
     = [Ok (VInt 99); Ok (VInt 32); Ok (VInt 48)].
Proof. repeat split; discriminate. Qed.

(** ** Uniqueness of ids *)

Lemma own_ids_distinct (ts : list Task) :
  own_ids ts -> NoDup (ids_of ts).
Proof.
  intros [Hnd Hall]. unfold ids_of.
  induction ts as [|t ts IH]; simpl; [constructor|].
  inversion Hnd as [|a l Hnotin Hnd']; subst.
  inversion Hall as [|t' l Ht Hall']; subst.
  constructor; [|now apply IH].
  rewrite in_map_iff. intros (t' & Heq & Hin).
  apply Hnotin. rewrite in_map_iff. exists t'. split; [|assumption].
  rewrite Forall_forall in Hall'. rewrite (Hall' t' Hin), Ht in Heq.
  congruence.
Qed.

Lemma tasks_add_task (tm : TaskManager) (self : Z) (now : string)
    (title description priority due_date : value) :
  tasks (snd (add_task self now title description priority due_date tm))
  = tasks tm ++ [Task_init self now title description priority due_date VNone].
Proof.
  unfold add_task, bind, get_tasks, set_tasks, ret. simpl.
  match goal with
  | |- context [save_tasks ?s] =>
      pose proof (tasks_save_tasks s) as Hs; destruct (save_tasks s) as [[[]|e] s']
  end; simpl in *; exact Hs.
Qed.

Lemma tasks_delete_task (tm : TaskManager) (task_id : Z) :
  tasks (snd (delete_task task_id tm)) = tasks tm
  \/ exists before task after,
       tasks tm = before ++ task :: after
       /\ tasks (snd (delete_task task_id tm)) = before ++ after.
Proof.
  unfold delete_task, bind, get_tasks, lift.
  destruct (find_task task_id (tasks tm)) as [[[[before task] after]|]|e] eqn:E;
    simpl; auto.
  right. exists before, task, after. split; [now apply find_task_split in E|].
  unfold set_tasks, ret.
  match goal with
  | |- context [save_tasks ?s] =>
      pose proof (tasks_save_tasks s) as Hs; destruct (save_tasks s) as [[[]|e] s']
  end; simpl in *; exact Hs.
Qed.

Lemma tasks_update_task_miss (tm : TaskManager) (task_id : Z) (kwargs : dict) :
  (forall before task after,
     find_task task_id (tasks tm) <> Ok (Some (before, task, after))) ->
  tasks (snd (update_task task_id kwargs tm)) = tasks tm.
Proof.
  intros H. unfold update_task, bind, get_tasks, lift.
  destruct (find_task task_id (tasks tm)) as [[[[before task] after]|]|e];
    simpl; try reflexivity.
  now destruct (H before task after).
Qed.

Lemma own_ids_add (ts : list Task) (self : Z) (now : string)
    (title description priority due_date : value) :
  own_ids ts -> ~ In self (map addr ts) ->
  own_ids (ts ++ [Task_init self now title description priority due_date VNone]).
Proof.
  intros [Hnd Hall] Hfresh. split.
  - rewrite map_app. simpl.
    apply NoDup_app; [assumption | repeat constructor; simpl; tauto |].
    intros a Ha [<-|[]]. contradiction.
  - apply Forall_app. split; [assumption|]. repeat constructor.
Qed.

Lemma own_ids_remove (before after : list Task) (task : Task) :
  own_ids (before ++ task :: after) -> own_ids (before ++ after).
Proof.
  intros [Hnd Hall]. split.
  - rewrite map_app in *. simpl in Hnd. now apply NoDup_remove_1 in Hnd.
  - apply Forall_app in Hall. destruct Hall as [Hb Ha].
    inversion Ha; subst. apply Forall_app. auto.
Qed.

Lemma own_ids_replace (before after : list Task) (task task' : Task) :
  addr task' = addr task ->
  getattr task' "id" = getattr task "id" ->
  own_ids (before ++ task :: after) -> own_ids (before ++ task' :: after).
Proof.
  intros Haddr Hid [Hnd Hall]. split.
  - rewrite map_app in *. simpl in *. now rewrite Haddr.
  - apply Forall_app in Hall. destruct Hall as [Hb Ha].
    inversion Ha; subst. apply Forall_app. split; [assumption|].
    constructor; [congruence | assumption].
Qed.

(** One operation keeps ids and identities together. *)
Lemma own_ids_step (o : op) (tm : TaskManager) :
  own_ids (tasks tm) ->
  fresh_adds [o] tm = true -> keeps_ids [o] = true ->
  own_ids (tasks (step o tm)).
Proof.
  intros Hown Hfresh Hkeep. simpl in Hfresh, Hkeep.
  rewrite andb_true_r in Hfresh, Hkeep.
  destruct o as [self now title description priority due_date
                | task_id kwargs | task_id]; simpl.
  - rewrite tasks_add_task. apply own_ids_add; [assumption|].
    apply negb_true_iff in Hfresh. intros Hin.
    assert (existsb (Z.eqb self) (map addr (tasks tm)) = true); [|congruence].
    apply existsb_exists. exists self. split; [assumption | apply Z.eqb_refl].
  - apply andb_true_iff in Hkeep. destruct Hkeep as [Hi Hd].
    apply negb_true_iff in Hi, Hd.
    destruct (find_task task_id (tasks tm)) as [[[[before task] after]|]|e] eqn:E.
    + rewrite (tasks_update_task tm task_id kwargs before after task E).
      destruct (apply_kwargs_frame "id" kwargs task Hd Hi) as [Ha Hg].
      apply (own_ids_replace before after task); try assumption.
      now rewrite <- (find_task_split _ _ _ _ _ E).
    + rewrite tasks_update_task_miss; [assumption | congruence].
    + rewrite tasks_update_task_miss; [assumption | congruence].
  - destruct (tasks_delete_task tm task_id)
      as [-> | (before & task & after & Hsplit & ->)]; [assumption|].
    rewrite Hsplit in Hown. now apply own_ids_remove in Hown.
Qed.

(** C2, as the code has it.  Start from a store in which every record's id
    is the identity of its own object, as in a store built without a
    backing file.  Over every run of add, update and delete in which no
    update names [[id]] or [[__dict__]], the ids of the held records are
    pairwise distinct after each operation. *)
Theorem ids_stay_distinct (ops : list op) (tm : TaskManager) :
  own_ids (tasks tm) ->
  fresh_adds ops tm = true ->
  keeps_ids ops = true ->
  Forall (fun tm' => NoDup (ids_of (tasks tm'))) (states ops tm).
Proof.
  revert tm. induction ops as [|o ops IH]; intros tm Hown Hfresh Hkeep.
  - constructor.
  - simpl in Hfresh, Hkeep. fold (step o tm) in Hfresh.
    apply andb_true_iff in Hfresh. destruct Hfresh as [Hf Hfs].
    apply andb_true_iff in Hkeep. destruct Hkeep as [Hk Hks].
    assert (Hown' : own_ids (tasks (step o tm))).
    { apply own_ids_step; [assumption | |]; simpl; now rewrite andb_true_r. }
    simpl. constructor; [now apply own_ids_distinct | now apply IH].
Qed.

Lemma ids_stay_distinct_witness :
  own_ids (tasks empty_store)
  /\ fresh_adds demo_run empty_store = true
  /\ keeps_ids demo_run = true
  /\ Forall (fun tm' => NoDup (ids_of (tasks tm'))) (states demo_run empty_store).
Proof.
  assert (H : own_ids (tasks empty_store)) by (split; constructor).
  split; [exact H|]. split; [reflexivity|]. split; [reflexivity|].
  apply (ids_stay_distinct demo_run empty_store H); reflexivity.
Defined.

(** Counterexample to C2 as stated.  An update that names [[id]], or that
    names [[__dict__]], can repeat an id already held; and a store loaded
    from a file keeps the ids of the file, so that a later add, whose
    object is at an address no held object has, can still repeat one of
    them. *)
Lemma ids_can_repeat :
  (fresh_adds clash_run empty_store = true
   /\ ids_of (tasks (last (states clash_run empty_store) empty_store))
      = [Ok (VInt 32); Ok (VInt 32)]
   /\ ~ Forall (fun tm' => NoDup (ids_of (tasks tm')))
               (states clash_run empty_store))
  /\ (fresh_adds swap_run empty_store = true
      /\ ids_of (tasks (last (states swap_run empty_store) empty_store))
         = [Ok (VInt 32); Ok (VInt 32)]
      /\ ~ Forall (fun tm' => NoDup (ids_of (tasks tm')))
                  (states swap_run empty_store))
  /\ (fst (TaskManager_init old_file demo_env) = Ok tt
      /\ fresh_adds reuse_run old_store = true
      /\ ids_of (tasks (last (states reuse_run old_store) old_store))
         = [Ok (VInt 139872); Ok (VInt 139872)]
      /\ ~ Forall (fun tm' => NoDup (ids_of (tasks tm')))
                  (states reuse_run old_store)).
Proof.
  assert (Hdup : forall v : result value, ~ NoDup [v; v]).
  { intros v H. inversion H as [|x l Hnotin _]; subst. apply Hnotin. now left. }
  split; [|split].
  - split; [reflexivity|]. split; [reflexivity|].
    intros H. rewrite Forall_forall in H.
    apply (Hdup (Ok (VInt 32))).
    apply (H (last (states clash_run empty_store) empty_store)).
    vm_compute. tauto.
  - split; [reflexivity|]. split; [reflexivity|].
    intros H. rewrite Forall_forall in H.
    apply (Hdup (Ok (VInt 32))).
    apply (H (last (states swap_run empty_store) empty_store)).
    vm_compute. tauto.
  - split; [reflexivity|]. split; [reflexivity|]. split; [reflexivity|].
    intros H. rewrite Forall_forall in H.
    apply (Hdup (Ok (VInt 139872))).
    apply (H (last (states reuse_run old_store) old_store)).
    vm_compute. tauto.
Qed.

(** ** Add, then get *)

Lemma find_task_last (task_id : Z) (ts : list Task) (task : Task) (v : value) :
  forallb (unmatched task_id) ts = true ->
  getattr task "id" = Ok v -> eq_int v task_id = true ->
  find_task task_id (ts ++ [task]) = Ok (Some (ts, task, [])).
Proof.
  intros Hts Hid Heq. induction ts as [|t ts IH]; simpl.
  - now rewrite Hid; simpl; rewrite Heq.
  - simpl in Hts. apply andb_true_iff in Hts. destruct Hts as [Ht Hts].
    unfold unmatched in Ht. unfold getattr at 1.
    destruct (dict_find "id" (attrs t)) as [i|]; [|discriminate].
    apply negb_true_iff in Ht. simpl. rewrite Ht, (IH Hts). reflexivity.
Qed.

Lemma is_record_Task_init (self : Z) (now : string)
    (title description priority due_date task_id : value) :
  is_record (Task_init self now title description priority due_date task_id)
  = true.
Proof. reflexivity. Qed.

(** C9, as the code has it.  On every store of task records, add returns a
    new record placed last, with the given title, description, priority and
    due_date, completed [[False]] and created_at the clock reading, and
    writes the file.  A get with the returned id right afterwards yields
    that record when no record held before the add has that id. *)
Theorem add_then_get (tm : TaskManager) (self : Z) (now : string)
    (title description priority due_date : value) :
  forallb is_record (tasks tm) = true ->
  exists task tm',
    add_task self now title description priority due_date tm = (Ok task, tm')
    /\ tasks tm' = tasks tm ++ [task]
    /\ disk tm' = Json (VList (map (fun t => VDict (snapshot t)) (tasks tm')))
    /\ attrs task = [ ("id", VInt self); ("title", title);
                      ("description", description); ("priority", priority);
                      ("due_date", due_date); ("completed", VBool false);
                      ("created_at", VStr now) ]
    /\ (forallb (unmatched self) (tasks tm) = true ->
        get_task self tm' = (Ok (Some task), tm')).
Proof.
  intros Hrec.
  set (task := Task_init self now title description priority due_date VNone).
  assert (Hall : forallb is_record (tasks tm ++ [task]) = true).
  { rewrite forallb_app, Hrec. reflexivity. }
  exists task.
  exists {| tasks := tasks tm ++ [task];
            disk := Json (VList (map (fun t => VDict (snapshot t))
                                     (tasks tm ++ [task]))) |}.
  split; [|split; [reflexivity|split; [reflexivity|split; [reflexivity|]]]].
  - unfold add_task, bind, get_tasks, set_tasks, save_tasks, lift, write_file,
      ret, bind, get_tasks. fold task. cbn [tasks disk].
    rewrite (mapM_to_dict_records _ Hall). reflexivity.
  - intros Hfree. unfold get_task, bind, get_tasks, lift, ret. cbn [tasks].
    rewrite (find_task_last self (tasks tm) task (VInt self) Hfree eq_refl
               (Z.eqb_refl self)).
    reflexivity.
Qed.

Lemma add_then_get_witness :
  forallb is_record (tasks demo_store) = true
  /\ forallb (unmatched 64) (tasks demo_store) = true
  /\ exists task tm',
       add_task 64 "2024-03-01 09:30:00" (VStr "Call bank") (VStr "")
         (VStr "Medium") (VStr "") demo_store = (Ok task, tm')
       /\ tasks tm' = tasks demo_store ++ [task]
       /\ disk tm' = Json (VList (map (fun t => VDict (snapshot t)) (tasks tm')))
       /\ attrs task = [ ("id", VInt 64); ("title", VStr "Call bank");
                         ("description", VStr ""); ("priority", VStr "Medium");
                         ("due_date", VStr ""); ("completed", VBool false);
                         ("created_at", VStr "2024-03-01 09:30:00") ]
       /\ get_task 64 tm' = (Ok (Some task), tm').
Proof.
  split; [reflexivity|]. split; [reflexivity|].
  destruct (add_then_get demo_store 64 "2024-03-01 09:30:00" (VStr "Call bank")
              (VStr "") (VStr "Medium") (VStr "") eq_refl)
    as (task & tm' & Hadd & Htasks & Hdisk & Hattrs & Hget).
  exists task, tm'. repeat (split; [assumption|]). apply Hget. reflexivity.
Defined.

(** On a store that already holds the new id, the record is appended and
    the file written all the same. *)
Example add_task_on_loaded_store :
  forallb is_record (tasks old_store) = true
  /\ forallb (unmatched 139872) (tasks old_store) = false
  /\ tasks reused = tasks old_store ++ [new_task]
  /\ disk reused = Json (VList (map (fun t => VDict (snapshot t)) (tasks reused))).
Proof. repeat split. Qed.

(** Counterexample to C9 as stated, on a loaded store.  The file holds a
    record whose id is 139872; the object of the new task lies at that
    address, where no held object lives.  Add returns the new task, and get
    with its id returns the record loaded from the file. *)
Lemma add_then_get_finds_older :
  fresh_adds reuse_run old_store = true
  /\ add_task 139872 "2024-03-01 09:00:00" (VStr "New task") (VStr "")
       (VStr "High") (VStr "") old_store = (Ok new_task, reused)
  /\ getattr new_task "id" = Ok (VInt 139872)
  /\ fst (get_task 139872 reused) = Ok (nth_error (tasks old_store) 0)
  /\ fst (get_task 139872 reused) <> Ok (Some new_task).
Proof. repeat split; discriminate. Qed.

(** ** Keys that name no attribute *)

Lemma dict_has_set (k k' : string) (v : value) (d : dict) :
  dict_has k (dict_set k' v d) = dict_has k d || String.eqb k k'.
Proof.
  unfold dict_has. destruct (String.eqb_spec k k') as [->|Hne].
  - rewrite dict_find_set_same. now rewrite orb_true_r.
  - rewrite dict_find_set_other by assumption. now rewrite orb_false_r.
Qed.

Lemma hasattr_assign_present (task : Task) (key k : string) (v : value) :
  dict_has key (attrs task) = true ->
  hasattr (assign task key v) k = hasattr task k.
Proof.
  intros H. unfold hasattr, assign. simpl. rewrite dict_has_set.
  destruct (String.eqb_spec k key) as [->|_].
  - now rewrite H.
  - now rewrite orb_false_r.
Qed.

Lemma tame_assign (task : Task) (key : string) (v : value) (kwargs : dict) :
  dict_has key (attrs task) = true ->
  tame (assign task key v) kwargs = tame task kwargs.
Proof.
  intros H. unfold tame. induction kwargs as [|[k w] rest IH]; simpl.
  - reflexivity.
  - now rewrite IH, hasattr_assign_present.
Qed.

Lemma is_field_inv (key : string) :
  is_field key = true -> In key fields.
Proof.
  unfold is_field. rewrite existsb_exists. intros (f & Hin & Heq).
  apply String.eqb_eq in Heq. now subst.
Qed.

Lemma is_field_intro (key : string) :
  In key fields -> is_field key = true.
Proof.
  intros H. unfold is_field. rewrite existsb_exists. exists key.
  split; [assumption | apply String.eqb_refl].
Qed.

(** A data attribute is none of the names [[setattr]] treats specially. *)
Lemma setattr_field (task : Task) (key : string) (v : value) :
  is_field key = true -> setattr task key v = Ok (assign task key v).
Proof.
  intros H. apply is_field_inv in H. unfold fields in H. simpl in H.
  repeat (destruct H as [<-|H]; [reflexivity|]). contradiction.
Qed.

Lemma updated_cons_field (task : Task) (key : string) (v : value)
    (rest : dict) (name : string) :
  is_field key = true ->
  updated (assign task key v) rest name = updated task ((key, v) :: rest) name.
Proof.
  intros Hk. unfold updated, assign. cbn [attrs last_binding].
  destruct (String.eqb_spec name key) as [->|Hne].
  - rewrite Hk, dict_find_set_same. now destruct (last_binding key rest).
  - rewrite dict_find_set_other by assumption.
    now destruct (is_field name); [destruct (last_binding name rest)|].
Qed.

Lemma updated_cons_skip (task : Task) (key : string) (v : value)
    (rest : dict) (name : string) :
  is_field key = false ->
  updated task rest name = updated task ((key, v) :: rest) name.
Proof.
  intros Hk. unfold updated. cbn [last_binding].
  destruct (is_field name) eqn:Hn; [|reflexivity].
  destruct (String.eqb_spec name key) as [->|_]; [congruence|].
  now destruct (last_binding name rest).
Qed.

(** On a tame mapping the loop runs to its end and leaves exactly the
    updated dictionary. *)
Lemma apply_kwargs_tame (kwargs : dict) :
  forall task,
    (forall f, is_field f = true -> dict_has f (attrs task) = true) ->
    tame task kwargs = true ->
    exists task',
      apply_kwargs task kwargs = (task', Ok tt)
      /\ forall name, dict_find name (attrs task') = updated task kwargs name.
Proof.
  induction kwargs as [|[key v] rest IH]; intros task Hfields Htame.
  - exists task. split; [reflexivity|]. intros name. unfold updated. simpl.
    now destruct (is_field name).
  - cbn [tame forallb fst] in Htame. apply andb_true_iff in Htame.
    destruct Htame as [Hkey Hrest]. cbn [apply_kwargs].
    destruct (is_field key) eqn:Hk.
    + assert (Hhas : dict_has key (attrs task) = true) by now apply Hfields.
      unfold hasattr at 1. rewrite Hhas. cbn [orb].
      rewrite (setattr_field task key v Hk).
      destruct (IH (assign task key v)) as (task' & Hrun & Hattrs).
      * intros f Hf. unfold assign. simpl. rewrite dict_has_set.
        now rewrite (Hfields f Hf).
      * now rewrite tame_assign.
      * exists task'. split; [exact Hrun|]. intros name.
        rewrite Hattrs. now apply updated_cons_field.
    + simpl in Hkey. apply negb_true_iff in Hkey. rewrite Hkey.
      destruct (IH task Hfields Hrest) as (task' & Hrun & Hattrs).
      exists task'. split; [exact Hrun|]. intros name.
      rewrite Hattrs. now apply updated_cons_skip.
Qed.

Lemma is_record_intro (task : Task) :
  (forall f, In f fields -> dict_has f (attrs task) = true) ->
  dict_has "to_dict" (attrs task) = false ->
  is_record task = true.
Proof.
  intros Hall Hno. unfold is_record. rewrite andb_true_iff, forallb_forall.
  split; [exact Hall | now rewrite Hno].
Qed.

Lemma updated_record (task task' : Task) (kwargs : dict) :
  is_record task = true ->
  (forall name, dict_find name (attrs task') = updated task kwargs name) ->
  is_record task' = true.
Proof.
  intros Hr Hattrs. destruct (is_record_inv task Hr) as [Hall Hno].
  apply is_record_intro.
  - intros f Hf. unfold dict_has. rewrite Hattrs. unfold updated.
    rewrite (is_field_intro f Hf). destruct (last_binding f kwargs); [reflexivity|].
    destruct (Hall f Hf) as [v ->]. reflexivity.
  - unfold dict_has. rewrite Hattrs. unfold updated.
    change (is_field "to_dict") with false. cbv iota. now rewrite Hno.
Qed.

(** C10, as the code has it.  On a store of task records, an update of a
    record that is held, with a mapping whose every key is a data attribute
    or names no attribute of the object, returns [[True]] and writes the
    file; the data attributes named take the supplied values and no other
    entry of the instance dictionary changes, so a key that names no
    attribute leaves no trace. *)
Theorem update_task_ignores_unknown (tm : TaskManager) (task_id : Z)
    (kwargs : dict) (before after : list Task) (task : Task) :
  forallb is_record (tasks tm) = true ->
  find_task task_id (tasks tm) = Ok (Some (before, task, after)) ->
  tame task kwargs = true ->
  exists task' tm',
    update_task task_id kwargs tm = (Ok true, tm')
    /\ tasks tm' = before ++ task' :: after
    /\ disk tm' = Json (VList (map (fun t => VDict (snapshot t)) (tasks tm')))
    /\ forall name, dict_find name (attrs task') = updated task kwargs name.
Proof.
  intros Hrec Hfind Htame.
  pose proof (find_task_split _ _ _ _ _ Hfind) as Hsplit.
  rewrite Hsplit, forallb_app in Hrec. cbn [forallb] in Hrec.
  apply andb_true_iff in Hrec. destruct Hrec as [Hb Hrec].
  apply andb_true_iff in Hrec. destruct Hrec as [Ht Ha].
  destruct (apply_kwargs_tame kwargs task) as (task' & Hrun & Hattrs);
    [|assumption|].
  { intros f Hf. destruct (is_record_inv task Ht) as [Hall _].
    destruct (Hall f (is_field_inv f Hf)) as [v Hv].
    unfold dict_has. now rewrite Hv. }
  assert (Hall : forallb is_record (before ++ task' :: after) = true).
  { rewrite forallb_app. cbn [forallb].
    now rewrite Hb, Ha, (updated_record task task' kwargs Ht Hattrs). }
  exists task'.
  exists {| tasks := before ++ task' :: after;
            disk := Json (VList (map (fun t => VDict (snapshot t))
                                     (before ++ task' :: after))) |}.
  split; [|split; [reflexivity|split; [reflexivity|exact Hattrs]]].
  unfold update_task, bind, get_tasks, lift. rewrite Hfind, Hrun.
  unfold set_tasks, save_tasks, bind, get_tasks, lift, write_file, ret.
  cbn [tasks disk]. rewrite (mapM_to_dict_records _ Hall). reflexivity.
Qed.

Lemma update_task_ignores_unknown_witness :
  forallb is_record (tasks demo_store) = true
  /\ find_task 32 (tasks demo_store)
     = Ok (Some (firstn 1 (tasks demo_store),
                 nth 1 (tasks demo_store) (mkTask 0 []),
                 skipn 2 (tasks demo_store)))
  /\ tame (nth 1 (tasks demo_store) (mkTask 0 []))
          [("title", VStr "Write memo"); ("colour", VStr "red")] = true
  /\ exists task' tm',
       update_task 32 [("title", VStr "Write memo"); ("colour", VStr "red")]
         demo_store = (Ok true, tm')
       /\ tasks tm' = firstn 1 (tasks demo_store) ++ task' :: skipn 2 (tasks demo_store)
       /\ disk tm' = Json (VList (map (fun t => VDict (snapshot t)) (tasks tm')))
       /\ forall name,
            dict_find name (attrs task')
            = updated (nth 1 (tasks demo_store) (mkTask 0 []))
                      [("title", VStr "Write memo"); ("colour", VStr "red")] name.
Proof.
  split; [reflexivity|]. split; [reflexivity|]. split; [reflexivity|].
  apply (update_task_ignores_unknown demo_store 32
           [("title", VStr "Write memo"); ("colour", VStr "red")]
           (firstn 1 (tasks demo_store)) (skipn 2 (tasks demo_store))
           (nth 1 (tasks demo_store) (mkTask 0 []))); reflexivity.
Defined.

(** Counterexample to C10 as stated, with a key that names a method.  The
    mapping has a key that names no attribute and the key [[to_dict]],
    which is an attribute of every task: the value is set on the object,
    where it hides the method; saving then calls the value, and the update
    raises instead of returning [[True]], with nothing written. *)
Lemma update_task_hides_method :
  hasattr (nth 0 (tasks demo_store) (mkTask 0 [])) "colour" = false
  /\ hasattr (nth 0 (tasks demo_store) (mkTask 0 [])) "to_dict" = true
  /\ fst (update_task 16 hiding demo_store) = Raise TypeError
  /\ fst (update_task 16 hiding demo_store) <> Ok true
  /\ dict_find "to_dict"
       (attrs (nth 0 (tasks (snd (update_task 16 hiding demo_store))) (mkTask 0 [])))
     = Some (VInt 0)
  /\ disk (snd (update_task 16 hiding demo_store)) = disk demo_store.
Proof. repeat split; discriminate. Qed.

(** ** Loading a file *)

Lemma load_missing (env : nat -> supply) :
  TaskManager_init Missing env = (Ok tt, {| tasks := []; disk := Missing |}).
Proof. reflexivity. Qed.

Lemma load_malformed (env : nat -> supply) :
  TaskManager_init Malformed env = (Ok tt, {| tasks := []; disk := Malformed |}).
Proof. reflexivity. Qed.

Lemma from_dicts_untitled (env : nat -> supply) (items : list value) :
  forall n,
    forallb is_dict items = true ->
    existsb untitled items = true ->
    from_dicts env n items = Raise KeyError.
Proof.
  induction items as [|v items IH]; intros n Hd Hu; [discriminate|].
  cbn [forallb existsb] in Hd, Hu. apply andb_true_iff in Hd.
  destruct Hd as [Hv Hd]. destruct v as [| | | | |d]; try discriminate.
  cbn [from_dicts]. unfold from_dict, subscript.
  simpl in Hu. unfold dict_has in Hu.
  destruct (dict_find "title" d) as [title|]; [|reflexivity].
  cbn [rbind]. simpl in Hu. now rewrite (IH (S n) Hd Hu).
Qed.

(** A list of records one of which has no title loads as an empty
    collection. *)
Lemma load_untitled (env : nat -> supply) (items : list value) :
  forallb is_dict items = true ->
  existsb untitled items = true ->
  TaskManager_init (Json (VList items)) env
  = (Ok tt, {| tasks := []; disk := Json (VList items) |}).
Proof.
  intros Hd Hu. unfold TaskManager_init, load_tasks. simpl.
  now rewrite (from_dicts_untitled env items 0%nat Hd Hu).
Qed.

(** JSON that is not a list of dictionaries up to its first faulty record
    makes the constructor raise: a first element that is not a dictionary
    is subscripted all the same. *)
Lemma load_non_record (env : nat -> supply) (v : value) (rest : list value) :
  is_dict v = false ->
  TaskManager_init (Json (VList (v :: rest))) env
  = (Raise TypeError, {| tasks := []; disk := Json (VList (v :: rest)) |}).
Proof.
  intros Hv. unfold TaskManager_init, load_tasks. simpl.
  destruct v; try discriminate; reflexivity.
Qed.

(** C4.  The file holds valid JSON, a list whose second element is a record
    without title and whose first element is a number.  Building the
    manager raises [[TypeError]]: the handler of [[load_tasks]] names only
    [[JSONDecodeError]] and [[KeyError]]. *)
Theorem load_tasks_raises (env : nat -> supply) :
  existsb untitled [ VInt 1; VDict [("description", VStr "no title")] ] = true
  /\ TaskManager_init mixed_file env
     = (Raise TypeError, {| tasks := []; disk := mixed_file |}).
Proof. split; reflexivity. Qed.

(** Other shapes of valid JSON that leave the constructor by an exception:
    a bare number, and an object that wraps the list. *)
Example load_other_shapes (env : nat -> supply) :
  fst (TaskManager_init (Json (VInt 5)) env) = Raise TypeError
  /\ fst (TaskManager_init (Json (VDict [("tasks", VList [])])) env)
     = Raise TypeError.
Proof. split; reflexivity. Qed.

(** * Further properties of the manager *)

(** ** Looking a record up *)

Lemma find_task_found (task_id : Z) (ts before after : list Task) (task : Task) :
  find_task task_id ts = Ok (Some (before, task, after)) ->
  ts = before ++ task :: after
  /\ forallb (unmatched task_id) before = true
  /\ answers task_id task = true.
Proof.
  revert before. induction ts as [|t ts IH]; intros before; simpl.
  - discriminate.
  - unfold getattr.
    destruct (dict_find "id" (attrs t)) as [i|] eqn:Ei; simpl; [|discriminate].
    destruct (eq_int i task_id) eqn:Eq.
    + intros H. injection H as <- <- <-. unfold answers. now rewrite Ei.
    + destruct (find_task task_id ts) as [[[[b f] a]|]|e]; simpl;
        try discriminate.
      intros H. injection H as <- <- <-.
      destruct (IH b eq_refl) as (-> & Hb & Hf).
      split; [reflexivity|]. split; [|exact Hf].
      cbn [forallb]. rewrite Hb, andb_true_r. unfold unmatched.
      now rewrite Ei, Eq.
Qed.

Lemma find_task_none (task_id : Z) (ts : list Task) :
  find_task task_id ts = Ok None -> forallb (unmatched task_id) ts = true.
Proof.
  induction ts as [|t ts IH]; simpl; [reflexivity|].
  unfold getattr, unmatched at 1.
  destruct (dict_find "id" (attrs t)) as [i|]; simpl; [|discriminate].
  destruct (eq_int i task_id); [discriminate|].
  destruct (find_task task_id ts) as [[[[b f] a]|]|e]; simpl; try discriminate.
  intros _. now apply IH.
Qed.

Lemma find_task_intro (task_id : Z) (before after : list Task) (task : Task) :
  forallb (unmatched task_id) before = true ->
  answers task_id task = true ->
  find_task task_id (before ++ task :: after) = Ok (Some (before, task, after)).
Proof.
  intros Hb Ht. induction before as [|t before IH]; simpl.
  - unfold answers in Ht. unfold getattr.
    destruct (dict_find "id" (attrs task)) as [i|]; [|discriminate].
    simpl. now rewrite Ht.
  - simpl in Hb. apply andb_true_iff in Hb. destruct Hb as [Hu Hb].
    unfold unmatched in Hu. unfold getattr at 1.
    destruct (dict_find "id" (attrs t)) as [i|]; [|discriminate].
    apply negb_true_iff in Hu. simpl. rewrite Hu, (IH Hb). reflexivity.
Qed.

Lemma save_tasks_records (ts : list Task) (f : file) :
  forallb is_record ts = true ->
  save_tasks {| tasks := ts; disk := f |}
  = (Ok tt, {| tasks := ts; disk := saved ts |}).
Proof.
  intros H. unfold save_tasks, bind, get_tasks, lift, write_file, saved.
  cbn [tasks]. now rewrite (mapM_to_dict_records ts H).
Qed.

Lemma records_split (before after : list Task) (task : Task) :
  forallb is_record (before ++ task :: after) = true ->
  forallb is_record before = true /\ is_record task = true
  /\ forallb is_record after = true.
Proof.
  rewrite forallb_app. cbn [forallb]. rewrite !andb_true_iff. tauto.
Qed.

(** X1.  Get answers with the first held record, in list order, whose id
    equals the argument: the records before it all have another id.  When
    it answers that there is none, every held record has another id. *)
Theorem get_task_first_match (tm : TaskManager) (task_id : Z)
    (found : option Task) :
  fst (get_task task_id tm) = Ok found ->
  snd (get_task task_id tm) = tm
  /\ match found with
     | Some task =>
         exists before after,
           tasks tm = before ++ task :: after
           /\ forallb (unmatched task_id) before = true
           /\ answers task_id task = true
     | None => forallb (unmatched task_id) (tasks tm) = true
     end.
Proof.
  unfold get_task, bind, get_tasks, lift, ret.
  destruct (find_task task_id (tasks tm)) as [[[[before task] after]|]|e] eqn:E;
    simpl; intros H; try discriminate; injection H as <-; split; try reflexivity.
  - exists before, after. now apply find_task_found.
  - now apply find_task_none.
Qed.

Lemma get_task_first_match_witness :
  fst (get_task 32 demo_store) = Ok (nth_error (tasks demo_store) 1)
  /\ snd (get_task 32 demo_store) = demo_store
  /\ match nth_error (tasks demo_store) 1 with
     | Some task =>
         exists before after,
           tasks demo_store = before ++ task :: after
           /\ forallb (unmatched 32) before = true
           /\ answers 32 task = true
     | None => forallb (unmatched 32) (tasks demo_store) = true
     end.
Proof.
  split; [reflexivity|].
  apply (get_task_first_match demo_store 32 (nth_error (tasks demo_store) 1)).
  reflexivity.
Defined.

(** ** Deleting *)

(** X2.  On a store of task records, deleting an id that get finds returns
    [[True]], takes out that one record and keeps every other record in
    place and in order, and writes the file; when no later record has the
    same id, a get with that id then finds nothing. *)
Theorem delete_task_removes (tm : TaskManager) (task_id : Z)
    (before after : list Task) (task : Task) :
  forallb is_record (tasks tm) = true ->
  find_task task_id (tasks tm) = Ok (Some (before, task, after)) ->
  delete_task task_id tm
  = (Ok true, {| tasks := before ++ after; disk := saved (before ++ after) |})
  /\ (forallb (unmatched task_id) after = true ->
      fst (get_task task_id (snd (delete_task task_id tm))) = Ok None).
Proof.
  intros Hrec Hfind.
  destruct (find_task_found _ _ _ _ _ Hfind) as (Hsplit & Hb & _).
  rewrite Hsplit in Hrec. apply records_split in Hrec.
  destruct Hrec as (Hrb & _ & Hra).
  assert (Hdel : delete_task task_id tm
                 = (Ok true, {| tasks := before ++ after;
                                disk := saved (before ++ after) |})).
  { unfold delete_task, bind, get_tasks, lift. rewrite Hfind.
    unfold set_tasks, ret. rewrite save_tasks_records; [reflexivity|].
    now rewrite forallb_app, Hrb, Hra. }
  split; [exact Hdel|]. intros Ha. rewrite Hdel.
  unfold get_task, bind, get_tasks, lift, ret. cbn [snd tasks].
  rewrite find_task_unmatched; [reflexivity|].
  now rewrite forallb_app, Hb, Ha.
Qed.

Lemma delete_task_removes_witness :
  forallb is_record (tasks demo_store) = true
  /\ find_task 32 (tasks demo_store)
     = Ok (Some (firstn 1 (tasks demo_store),
                 nth 1 (tasks demo_store) (mkTask 0 []),
                 skipn 2 (tasks demo_store)))
  /\ forallb (unmatched 32) (skipn 2 (tasks demo_store)) = true
  /\ delete_task 32 demo_store
     = (Ok true,
        {| tasks := firstn 1 (tasks demo_store) ++ skipn 2 (tasks demo_store);
           disk := saved (firstn 1 (tasks demo_store) ++ skipn 2 (tasks demo_store)) |})
  /\ fst (get_task 32 (snd (delete_task 32 demo_store))) = Ok None.
Proof.
  split; [reflexivity|]. split; [reflexivity|]. split; [reflexivity|].
  destruct (delete_task_removes demo_store 32 (firstn 1 (tasks demo_store))
              (skipn 2 (tasks demo_store))
              (nth 1 (tasks demo_store) (mkTask 0 [])) eq_refl eq_refl)
    as [Hdel Hget].
  split; [exact Hdel | exact (Hget eq_refl)].
Defined.

(** ** Completing *)

Lemma dict_set_set (k : string) (v v' : value) (d : dict) :
  dict_set k v' (dict_set k v d) = dict_set k v' d.
Proof.
  induction d as [|[k0 v0] d IH]; simpl.
  - now rewrite String.eqb_refl.
  - destruct (String.eqb k k0) eqn:E; simpl; rewrite E; [reflexivity|].
    now rewrite IH.
Qed.

Lemma dict_set_same_value (k : string) (v : value) (d : dict) :
  dict_find k d = Some v -> dict_set k v d = d.
Proof.
  induction d as [|[k0 v0] d IH]; simpl; [discriminate|].
  destruct (String.eqb k k0) eqn:E.
  - intros H. injection H as ->. reflexivity.
  - intros H. now rewrite (IH H).
Qed.

Lemma assign_assign (task : Task) (name : string) (v v' : value) :
  assign (assign task name v) name v' = assign task name v'.
Proof. unfold assign. simpl. now rewrite dict_set_set. Qed.

Lemma assign_same_value (task : Task) (name : string) (v : value) :
  getattr task name = Ok v -> assign task name v = task.
Proof.
  unfold getattr, assign. destruct (dict_find name (attrs task)) as [w|] eqn:E;
    [|discriminate].
  intros H. injection H as ->. rewrite (dict_set_same_value _ _ _ E).
  now destruct task.
Qed.

Lemma is_record_assign (task : Task) (name : string) (v : value) :
  is_field name = true -> is_record task = true ->
  is_record (assign task name v) = true.
Proof.
  intros Hn Hr. destruct (is_record_inv task Hr) as [Hall Hno].
  apply is_record_intro.
  - intros f Hf. unfold assign. simpl. rewrite dict_has_set.
    destruct (Hall f Hf) as [w Hw]. unfold dict_has at 1. now rewrite Hw.
  - unfold assign, dict_has. simpl. rewrite dict_find_set_other.
    + now rewrite Hno.
    + intros <-. discriminate.
Qed.

Lemma answers_assign (task_id : Z) (task : Task) (name : string) (v : value) :
  name <> "id" ->
  answers task_id (assign task name v) = answers task_id task.
Proof.
  intros H. unfold answers, assign. simpl.
  rewrite dict_find_set_other; [reflexivity | congruence].
Qed.

Lemma is_pending_record (t : Task) :
  is_record t = true -> is_pending t = Ok (pending t).
Proof.
  intros Hr. unfold is_pending, pending, completed_flag.
  now rewrite (getattr_record t "completed" Hr) by in_fields.
Qed.

Lemma get_all_tasks_pending (ts : list Task) (f : file) :
  forallb is_record ts = true ->
  get_all_tasks false {| tasks := ts; disk := f |}
  = (Ok (filter pending ts), {| tasks := ts; disk := f |}).
Proof.
  intros H. unfold get_all_tasks, bind, get_tasks, lift. cbn [tasks].
  rewrite (filterM_filter is_pending pending ts); [reflexivity|].
  intros t Ht. apply is_pending_record.
  now apply (proj1 (forallb_forall _ _) H).
Qed.

Lemma set_completed_found (tm : TaskManager) (task_id : Z) (flag : bool)
    (before after : list Task) (task : Task) :
  forallb is_record (tasks tm) = true ->
  find_task task_id (tasks tm) = Ok (Some (before, task, after)) ->
  forallb is_record (before ++ assign task "completed" (VBool flag) :: after)
  = true
  /\ set_completed task_id flag tm
     = (Ok true,
        {| tasks := before ++ assign task "completed" (VBool flag) :: after;
           disk := saved (before ++ assign task "completed" (VBool flag)
                                 :: after) |}).
Proof.
  intros Hrec Hfind.
  destruct (find_task_found _ _ _ _ _ Hfind) as (Hsplit & _ & _).
  rewrite Hsplit in Hrec. apply records_split in Hrec.
  destruct Hrec as (Hrb & Hrt & Hra).
  assert (Hall : forallb is_record
                   (before ++ assign task "completed" (VBool flag) :: after)
                 = true).
  { rewrite forallb_app. cbn [forallb].
    now rewrite Hrb, Hra, (is_record_assign task "completed" _ eq_refl Hrt). }
  split; [exact Hall|].
  unfold set_completed, bind, get_tasks, lift. rewrite Hfind.
  unfold set_tasks, ret. now rewrite save_tasks_records.
Qed.

Lemma filter_pending_assign_true (task : Task) :
  pending (assign task "completed" (VBool true)) = false.
Proof.
  unfold pending, completed_flag, dict_get, assign. simpl.
  now rewrite dict_find_set_same.
Qed.

Lemma filter_pending_assign_false (task : Task) :
  pending (assign task "completed" (VBool false)) = true.
Proof.
  unfold pending, completed_flag, dict_get, assign. simpl.
  now rewrite dict_find_set_same.
Qed.

(** X3.  On a store of task records, completing an id that get finds
    returns [[True]], sets the flag of that one record, leaves its other
    attributes and every other record as they were, and writes the file.
    The list of pending tasks then consists of the pending records before
    and after it, without the record itself. *)
Theorem complete_task_marks (tm : TaskManager) (task_id : Z)
    (before after : list Task) (task : Task) :
  forallb is_record (tasks tm) = true ->
  find_task task_id (tasks tm) = Ok (Some (before, task, after)) ->
  let done := assign task "completed" (VBool true) in
  complete_task task_id tm
  = (Ok true, {| tasks := before ++ done :: after;
                 disk := saved (before ++ done :: after) |})
  /\ getattr done "completed" = Ok (VBool true)
  /\ (forall name, name <> "completed" -> getattr done name = getattr task name)
  /\ fst (get_all_tasks false (snd (complete_task task_id tm)))
     = Ok (filter pending before ++ filter pending after)
  /\ fst (get_all_tasks true (snd (complete_task task_id tm)))
     = Ok (before ++ done :: after).
Proof.
  intros Hrec Hfind done.
  destruct (set_completed_found tm task_id true before after task Hrec Hfind)
    as [Hall Hset].
  unfold complete_task. rewrite Hset. cbn [snd fst].
  split; [reflexivity|]. split; [apply getattr_assign_same|].
  split; [intros name Hn; now apply getattr_assign_other|]. split.
  - rewrite (get_all_tasks_pending _ _ Hall). cbn [fst].
    rewrite filter_app. cbn [filter]. fold done.
    unfold done. now rewrite filter_pending_assign_true.
  - reflexivity.
Qed.

Lemma complete_task_marks_witness :
  forallb is_record (tasks demo_store) = true
  /\ find_task 16 (tasks demo_store)
     = Ok (Some ([], nth 0 (tasks demo_store) (mkTask 0 []),
                 skipn 1 (tasks demo_store)))
  /\ fst (get_all_tasks false (snd (complete_task 16 demo_store)))
     = Ok (filter pending [] ++ filter pending (skipn 1 (tasks demo_store))).
Proof.
  split; [reflexivity|]. split; [reflexivity|].
  apply (complete_task_marks demo_store 16 [] (skipn 1 (tasks demo_store))
           (nth 0 (tasks demo_store) (mkTask 0 [])) eq_refl eq_refl).
Defined.

(** X4.  On a store of task records, completing a held task that is not
    completed and then uncompleting it gives back the task list as it was,
    with the file holding exactly that list; completing a task a second
    time changes nothing more. *)
Theorem complete_then_uncomplete (tm : TaskManager) (task_id : Z)
    (before after : list Task) (task : Task) :
  forallb is_record (tasks tm) = true ->
  find_task task_id (tasks tm) = Ok (Some (before, task, after)) ->
  getattr task "completed" = Ok (VBool false) ->
  uncomplete_task task_id (snd (complete_task task_id tm))
  = (Ok true, {| tasks := tasks tm; disk := saved (tasks tm) |})
  /\ complete_task task_id (snd (complete_task task_id tm))
     = (Ok true, snd (complete_task task_id tm)).
Proof.
  intros Hrec Hfind Hflag.
  destruct (find_task_found _ _ _ _ _ Hfind) as (Hsplit & Hb & Ht).
  destruct (set_completed_found tm task_id true before after task Hrec Hfind)
    as [Hall Hset].
  assert (Hfind' : find_task task_id
                     (before ++ assign task "completed" (VBool true) :: after)
                   = Ok (Some (before, assign task "completed" (VBool true),
                               after))).
  { apply find_task_intro; [assumption|].
    rewrite answers_assign; [assumption | discriminate]. }
  unfold complete_task, uncomplete_task. rewrite Hset. cbn [snd]. split.
  - destruct (set_completed_found
                {| tasks := before ++ assign task "completed" (VBool true) :: after;
                   disk := saved (before ++ assign task "completed" (VBool true)
                                         :: after) |}
                task_id false before after
                (assign task "completed" (VBool true)) Hall Hfind')
      as [_ Hunset].
    rewrite Hunset, assign_assign, (assign_same_value task _ _ Hflag).
    now rewrite <- Hsplit.
  - destruct (set_completed_found
                {| tasks := before ++ assign task "completed" (VBool true) :: after;
                   disk := saved (before ++ assign task "completed" (VBool true)
                                         :: after) |}
                task_id true before after
                (assign task "completed" (VBool true)) Hall Hfind')
      as [_ Hagain].
    now rewrite Hagain, assign_assign.
Qed.

Lemma complete_then_uncomplete_witness :
  forallb is_record (tasks demo_store) = true
  /\ find_task 16 (tasks demo_store)
     = Ok (Some ([], nth 0 (tasks demo_store) (mkTask 0 []),
                 skipn 1 (tasks demo_store)))
  /\ getattr (nth 0 (tasks demo_store) (mkTask 0 [])) "completed"
     = Ok (VBool false)
  /\ uncomplete_task 16 (snd (complete_task 16 demo_store))
     = (Ok true, {| tasks := tasks demo_store; disk := saved (tasks demo_store) |})
  /\ complete_task 16 (snd (complete_task 16 demo_store))
     = (Ok true, snd (complete_task 16 demo_store)).
Proof.
  split; [reflexivity|]. split; [reflexivity|]. split; [reflexivity|].
  apply (complete_then_uncomplete demo_store 16 [] (skipn 1 (tasks demo_store))
           (nth 0 (tasks demo_store) (mkTask 0 [])) eq_refl eq_refl eq_refl).
Defined.

(** ** Lists and statistics *)

Lemma has_priority_record (name : string) (t : Task) :
  is_record t = true -> has_priority name t = Ok (priority_is name t).
Proof.
  intros Hr. unfold has_priority, priority_is.
  now rewrite (getattr_record t "priority" Hr) by in_fields.
Qed.

Lemma get_tasks_by_priority_records (tm : TaskManager) (name : string) :
  forallb is_record (tasks tm) = true ->
  get_tasks_by_priority name tm = (Ok (filter (priority_is name) (tasks tm)), tm).
Proof.
  intros H. unfold get_tasks_by_priority, bind, get_tasks, lift.
  rewrite (filterM_filter (has_priority name) (priority_is name) (tasks tm));
    [reflexivity|].
  intros t Ht. apply has_priority_record.
  now apply (proj1 (forallb_forall _ _) H).
Qed.

Lemma get_statistics_records (tm : TaskManager) :
  forallb is_record (tasks tm) = true ->
  get_statistics tm
  = (Ok (summary (Z.of_nat (length (tasks tm)))
                 (count completed_flag (tasks tm))
                 (count pending (tasks tm))
                 (count (in_bucket "High") (tasks tm))
                 (count (in_bucket "Medium") (tasks tm))
                 (count (in_bucket "Low") (tasks tm))),
     tm).
Proof.
  intros H.
  assert (Hall : forall t, In t (tasks tm) -> is_record t = true)
    by now apply forallb_forall.
  unfold get_statistics, bind, get_tasks, lift.
  rewrite (countM_count is_completed completed_flag)
    by (intros t Ht; apply is_completed_record; auto).
  cbn [rbind].
  rewrite !(countM_count (pending_with _) (in_bucket _))
    by (intros t Ht; apply pending_with_record; auto).
  cbn [rbind]. rewrite count_complement. reflexivity.
Qed.

Lemma filter_filter_bucket (name : string) (ts : list Task) :
  filter pending (filter (priority_is name) ts) = filter (in_bucket name) ts.
Proof.
  induction ts as [|t ts IH]; simpl; [reflexivity|].
  unfold in_bucket at 1. fold (pending t).
  destruct (priority_is name t); simpl.
  - rewrite andb_true_r. destruct (pending t); now rewrite IH.
  - now rewrite andb_false_r.
Qed.

(** X5.  On a store of task records the statistics agree with the lists the
    manager hands out: total is the length of the full list, pending the
    length of the list without completed tasks, completed their difference,
    and each priority figure the number of pending tasks in the list for
    that priority. *)
Theorem statistics_agree_with_lists (tm : TaskManager) :
  forallb is_record (tasks tm) = true ->
  exists every open high medium low,
    get_all_tasks true tm = (Ok every, tm)
    /\ get_all_tasks false tm = (Ok open, tm)
    /\ get_tasks_by_priority "High" tm = (Ok high, tm)
    /\ get_tasks_by_priority "Medium" tm = (Ok medium, tm)
    /\ get_tasks_by_priority "Low" tm = (Ok low, tm)
    /\ get_statistics tm
       = (Ok (summary (Z.of_nat (length every))
                      (Z.of_nat (length every) - Z.of_nat (length open))
                      (Z.of_nat (length open))
                      (Z.of_nat (length (filter pending high)))
                      (Z.of_nat (length (filter pending medium)))
                      (Z.of_nat (length (filter pending low)))),
          tm).
Proof.
  intros H.
  exists (tasks tm), (filter pending (tasks tm)),
         (filter (priority_is "High") (tasks tm)),
         (filter (priority_is "Medium") (tasks tm)),
         (filter (priority_is "Low") (tasks tm)).
  split; [reflexivity|]. split.
  { destruct tm as [ts f]. now apply get_all_tasks_pending. }
  rewrite !(get_tasks_by_priority_records tm _ H).
  split; [reflexivity|]. split; [reflexivity|]. split; [reflexivity|].
  rewrite (get_statistics_records tm H), !filter_filter_bucket.
  unfold summary. repeat f_equal.
  pose proof (count_complement completed_flag (tasks tm)) as Hc.
  unfold count in *. unfold pending.
  change (fun t : Task => negb (completed_flag t))
    with (fun task : Task => negb (completed_flag task)) in Hc.
  lia.
Qed.

Lemma statistics_agree_with_lists_witness :
  forallb is_record (tasks demo_store) = true
  /\ exists every open high medium low,
       get_all_tasks true demo_store = (Ok every, demo_store)
       /\ get_all_tasks false demo_store = (Ok open, demo_store)
       /\ get_tasks_by_priority "High" demo_store = (Ok high, demo_store)
       /\ get_tasks_by_priority "Medium" demo_store = (Ok medium, demo_store)
       /\ get_tasks_by_priority "Low" demo_store = (Ok low, demo_store)
       /\ get_statistics demo_store
          = (Ok (summary (Z.of_nat (length every))
                         (Z.of_nat (length every) - Z.of_nat (length open))
                         (Z.of_nat (length open))
                         (Z.of_nat (length (filter pending high)))
                         (Z.of_nat (length (filter pending medium)))
                         (Z.of_nat (length (filter pending low)))),
             demo_store).
Proof.
  split; [reflexivity|].
  apply (statistics_agree_with_lists demo_store). reflexivity.
Defined.

Lemma priority_is_spec (name : string) (t : Task) :
  is_record t = true ->
  priority_is name t = true <-> getattr t "priority" = Ok (VStr name).
Proof.
  intros Hr. rewrite (getattr_record t "priority" Hr) by in_fields.
  unfold priority_is. split.
  - intros H. now rewrite (eq_str_true _ _ H).
  - intros H. injection H as ->. simpl. apply String.eqb_refl.
Qed.

(** X6.  On a store of task records the list for a priority holds, in
    list order, exactly the records whose priority is that very string,
    completed or not; comparison is exact, so no record is in the lists of
    two different priorities. *)
Theorem get_tasks_by_priority_exact (tm : TaskManager) (name : string) :
  forallb is_record (tasks tm) = true ->
  exists sel,
    get_tasks_by_priority name tm = (Ok (filter sel (tasks tm)), tm)
    /\ (forall t, In t (tasks tm) ->
                  (sel t = true <-> getattr t "priority" = Ok (VStr name)))
    /\ (forall other found t,
          fst (get_tasks_by_priority other tm) = Ok found ->
          In t found -> In t (filter sel (tasks tm)) -> other = name).
Proof.
  intros H.
  assert (Hall : forall t, In t (tasks tm) -> is_record t = true)
    by now apply forallb_forall.
  exists (priority_is name). split; [now apply get_tasks_by_priority_records|].
  split.
  - intros t Ht. apply priority_is_spec. auto.
  - intros other found t Hother Hin1 Hin2.
    rewrite (get_tasks_by_priority_records tm other H) in Hother.
    injection Hother as <-.
    apply filter_In in Hin1. destruct Hin1 as [Ht Ho].
    apply filter_In in Hin2. destruct Hin2 as [_ Hn].
    apply (priority_is_spec other t (Hall t Ht)) in Ho.
    apply (priority_is_spec name t (Hall t Ht)) in Hn.
    congruence.
Qed.

Lemma get_tasks_by_priority_exact_witness :
  forallb is_record (tasks demo_store) = true
  /\ fst (get_tasks_by_priority "High" demo_store)
     = Ok (firstn 1 (tasks demo_store))
  /\ fst (get_tasks_by_priority "high" demo_store) = Ok []
  /\ exists sel,
       get_tasks_by_priority "High" demo_store
       = (Ok (filter sel (tasks demo_store)), demo_store)
       /\ (forall t, In t (tasks demo_store) ->
                     (sel t = true <-> getattr t "priority" = Ok (VStr "High")))
       /\ (forall other found t,
             fst (get_tasks_by_priority other demo_store) = Ok found ->
             In t found -> In t (filter sel (tasks demo_store)) ->
             other = "High").
Proof.
  split; [reflexivity|]. split; [reflexivity|]. split; [reflexivity|].
  apply (get_tasks_by_priority_exact demo_store "High"). reflexivity.
Defined.

(** ** Memory and file *)

(** Saving either writes the dictionaries of all held tasks or, when one of
    them cannot be built, stops before the file is opened. *)
Lemma save_tasks_outcome (tm : TaskManager) :
  match save_tasks tm with
  | (Ok _, tm') =>
      exists data,
        mapM to_dict (tasks tm) = Ok data
        /\ tm' = {| tasks := tasks tm; disk := Json (VList data) |}
  | (Raise _, tm') => tm' = tm
  end.
Proof.
  unfold save_tasks, bind, get_tasks, lift, write_file.
  destruct (mapM to_dict (tasks tm)) as [data|e]; [|reflexivity].
  now exists data.
Qed.

Lemma in_step_after_save (tm : TaskManager) (ts : list Task) :
  in_step tm
    (match save_tasks {| tasks := ts; disk := disk tm |} with
     | (Ok _, tm') => (Ok true, tm')
     | (Raise e, tm') => (Raise e, tm')
     end).
Proof.
  pose proof (save_tasks_outcome {| tasks := ts; disk := disk tm |}) as H.
  destruct (save_tasks _) as [[[]|e] tm']; simpl in *; [|exact I].
  destruct H as (data & Hd & ->). now exists data.
Qed.

(** X7.  Whatever the manager holds, when one of add, update, delete,
    complete and uncomplete returns, memory and file agree: after [[True]]
    (add: after the new task is returned) the file holds exactly the
    dictionaries of the tasks now held, and after [[False]] neither the
    task list nor the file has changed. *)
Theorem mutate_file_in_step (m : mutation) (tm : TaskManager) :
  in_step tm (mutate m tm).
Proof.
  destruct m as [self now title description priority due_date
                | task_id kwargs | task_id | task_id | task_id];
    unfold mutate, add_task, update_task, delete_task, complete_task,
      uncomplete_task, set_completed, bind, get_tasks, lift, set_tasks, ret.
  - pose proof (in_step_after_save tm
                  (tasks tm ++ [Task_init self now title description priority
                                          due_date VNone])) as H.
    cbn [tasks disk]. destruct (save_tasks _) as [[[]|e] tm']; exact H.
  - destruct (find_task task_id (tasks tm)) as [[[[before task] after]|]|e];
      [|reflexivity|exact I].
    destruct (apply_kwargs task kwargs) as [task' [[]|e]]; [|exact I].
    pose proof (in_step_after_save tm (before ++ task' :: after)) as H.
    cbn [tasks disk]. destruct (save_tasks _) as [[[]|e] tm']; exact H.
  - destruct (find_task task_id (tasks tm)) as [[[[before task] after]|]|e];
      [|reflexivity|exact I].
    pose proof (in_step_after_save tm (before ++ after)) as H.
    cbn [tasks disk]. destruct (save_tasks _) as [[[]|e] tm']; exact H.
  - destruct (find_task task_id (tasks tm)) as [[[[before task] after]|]|e];
      [|reflexivity|exact I].
    pose proof (in_step_after_save tm
                  (before ++ assign task "completed" (VBool true) :: after)) as H.
    cbn [tasks disk]. destruct (save_tasks _) as [[[]|e] tm']; exact H.
  - destruct (find_task task_id (tasks tm)) as [[[[before task] after]|]|e];
      [|reflexivity|exact I].
    pose proof (in_step_after_save tm
                  (before ++ assign task "completed" (VBool false) :: after)) as H.
    cbn [tasks disk]. destruct (save_tasks _) as [[[]|e] tm']; exact H.
Qed.

(** ** Two updates in a row *)

Lemma apply_kwargs_app (k1 k2 : dict) :
  forall task task1,
    apply_kwargs task k1 = (task1, Ok tt) ->
    apply_kwargs task (k1 ++ k2) = apply_kwargs task1 k2.
Proof.
  induction k1 as [|[key v] k1 IH]; intros task task1; simpl.
  - intros H. now injection H as ->.
  - destruct (hasattr task key); [|apply IH].
    destruct (setattr task key v) as [task'|e]; [apply IH | discriminate].
Qed.

Lemma answers_getattr (task_id : Z) (t t' : Task) :
  getattr t' "id" = getattr t "id" -> answers task_id t' = answers task_id t.
Proof.
  unfold getattr, answers.
  destruct (dict_find "id" (attrs t')), (dict_find "id" (attrs t));
    intros H; try discriminate; [now injection H as ->|reflexivity].
Qed.

(** What a successful update leaves: the place of the record, the object
    after the loop, and the file written from the new list. *)
Lemma update_task_true (tm : TaskManager) (task_id : Z) (kwargs : dict)
    (before after : list Task) (task : Task) :
  find_task task_id (tasks tm) = Ok (Some (before, task, after)) ->
  fst (update_task task_id kwargs tm) = Ok true ->
  exists task' data,
    apply_kwargs task kwargs = (task', Ok tt)
    /\ mapM to_dict (before ++ task' :: after) = Ok data
    /\ update_task task_id kwargs tm
       = (Ok true, {| tasks := before ++ task' :: after;
                      disk := Json (VList data) |}).
Proof.
  intros Hfind. unfold update_task, bind, get_tasks, lift. rewrite Hfind.
  destruct (apply_kwargs task kwargs) as [task' [[]|e]]; [|discriminate].
  unfold set_tasks, ret.
  pose proof (save_tasks_outcome
                {| tasks := before ++ task' :: after; disk := disk tm |}) as Hs.
  destruct (save_tasks _) as [[[]|e] tm']; [|discriminate].
  destruct Hs as (data & Hdata & ->). intros _.
  exists task', data. auto.
Qed.

(** X8.  Take two mappings that share no key, the first of which names
    neither [[id]] nor [[__dict__]].  Two updates of the same held record,
    one with each mapping, when both return [[True]], leave the task list
    and the file exactly as the single update that is given the entries of
    the first mapping followed by those of the second. *)
Theorem update_task_twice (tm : TaskManager) (task_id : Z) (k1 k2 : dict)
    (before after : list Task) (task : Task) :
  distinct_keys (k1 ++ k2) = true ->
  find_task task_id (tasks tm) = Ok (Some (before, task, after)) ->
  dict_has "id" k1 = false ->
  dict_has "__dict__" k1 = false ->
  fst (update_task task_id k1 tm) = Ok true ->
  fst (update_task task_id k2 (snd (update_task task_id k1 tm))) = Ok true ->
  update_task task_id k2 (snd (update_task task_id k1 tm))
  = update_task task_id (k1 ++ k2) tm.
Proof.
  intros _ Hfind Hid Hdict H1 H2.
  destruct (find_task_found _ _ _ _ _ Hfind) as (_ & Hb & Ht).
  destruct (update_task_true tm task_id k1 before after task Hfind H1)
    as (task1 & data1 & Hrun1 & _ & Hup1).
  rewrite Hup1 in *. cbn [snd] in *.
  assert (Hfind1 : find_task task_id (before ++ task1 :: after)
                   = Ok (Some (before, task1, after))).
  { apply find_task_intro; [assumption|].
    destruct (apply_kwargs_frame "id" k1 task Hdict Hid) as [_ Hg].
    rewrite Hrun1 in Hg. cbn [fst] in Hg.
    now rewrite (answers_getattr task_id task task1 Hg). }
  destruct (update_task_true
              {| tasks := before ++ task1 :: after; disk := Json (VList data1) |}
              task_id k2 before after task1 Hfind1 H2)
    as (task2 & data2 & Hrun2 & Hdata2 & Hup2).
  rewrite Hup2.
  unfold update_task, bind, get_tasks, lift. rewrite Hfind.
  rewrite (apply_kwargs_app k1 k2 task task1 Hrun1), Hrun2.
  unfold set_tasks, ret, save_tasks, bind, get_tasks, lift, write_file.
  cbn [tasks disk]. now rewrite Hdata2.
Qed.

Lemma update_task_twice_witness :
  distinct_keys ([("title", VStr "Write memo"); ("colour", VStr "red")]
                 ++ [("priority", VStr "High")]) = true
  /\ update_task 32 [("priority", VStr "High")]
       (snd (update_task 32 [("title", VStr "Write memo"); ("colour", VStr "red")]
               demo_store))
     = update_task 32 ([("title", VStr "Write memo"); ("colour", VStr "red")]
                       ++ [("priority", VStr "High")]) demo_store.
Proof.
  split; [reflexivity|].
  apply (update_task_twice demo_store 32
           [("title", VStr "Write memo"); ("colour", VStr "red")]
           [("priority", VStr "High")]
           (firstn 1 (tasks demo_store)) (skipn 2 (tasks demo_store))
           (nth 1 (tasks demo_store) (mkTask 0 []))); reflexivity.
Defined.

(** ** Files the manager can read *)

Lemma from_dict_title (self : Z) (now1 now2 : string) (d : dict)
    (title : value) :
  dict_find "title" d = Some title ->
  exists task,
    from_dict self now1 now2 (VDict d) = Ok task
    /\ getattr task "title" = Ok title.
Proof.
  intros Ht. unfold from_dict, subscript. rewrite Ht. cbn [rbind].
  eexists. split; reflexivity.
Qed.

Lemma from_dicts_titled (env : nat -> supply) (items : list value) :
  forall n,
    forallb titled items = true ->
    exists ts,
      from_dicts env n items = Ok ts
      /\ map (fun t => getattr t "title") ts
         = map (fun v => subscript v "title") items.
Proof.
  induction items as [|v items IH]; intros n H.
  - exists []. split; reflexivity.
  - cbn [forallb] in H. apply andb_true_iff in H. destruct H as [Hv H].
    destruct v as [| | | | |d]; try discriminate.
    simpl in Hv. apply dict_has_true in Hv. destruct Hv as [title Ht].
    destruct (from_dict_title (new_id (env n)) (now_init (env n))
                (now_default (env n)) d title Ht)
      as (task & Hload & Htitle).
    destruct (IH (S n) H) as (ts & Hts & Hmap).
    exists (task :: ts). cbn [from_dicts]. rewrite Hload. cbn [rbind].
    rewrite Hts. cbn [rbind]. split; [reflexivity|].
    cbn [map]. rewrite Hmap, Htitle. unfold subscript. now rewrite Ht.
Qed.

(** X9.  A file that holds a list of dictionaries, each with a title,
    loads without exception into as many tasks, in the order of the file
    and with the titles of the file; every loaded task is a record with
    its id set, and loading leaves the file as it is. *)
Theorem load_titled (env : nat -> supply) (items : list value) :
  forallb titled items = true ->
  exists ts,
    TaskManager_init (Json (VList items)) env
    = (Ok tt, {| tasks := ts; disk := Json (VList items) |})
    /\ length ts = length items
    /\ map (fun t => getattr t "title") ts
       = map (fun v => subscript v "title") items
    /\ forallb (fun t => is_record t && has_id t) ts = true.
Proof.
  intros H. destruct (from_dicts_titled env items 0%nat H) as (ts & Hts & Hmap).
  exists ts. split; [|split; [|split]].
  - unfold TaskManager_init, load_tasks. simpl. now rewrite Hts.
  - apply (f_equal (@length _)) in Hmap. now rewrite !length_map in Hmap.
  - exact Hmap.
  - now apply (from_dicts_records env items 0%nat).
Qed.

Lemma load_titled_witness :
  exists ts,
    TaskManager_init old_file demo_env
    = (Ok tt, {| tasks := ts; disk := old_file |})
    /\ length ts = 1%nat
    /\ map (fun t => getattr t "title") ts = [Ok (VStr "Old task")]
    /\ forallb (fun t => is_record t && has_id t) ts = true.
Proof.
  apply (load_titled demo_env
           [ VDict [ ("id", VInt 139872); ("title", VStr "Old task");
                     ("description", VStr ""); ("priority", VStr "Low");
                     ("due_date", VStr ""); ("completed", VBool false);
                     ("created_at", VStr "2024-02-28 18:30:00") ] ]).
  reflexivity.
Defined.

(** X10.  Loading is all or nothing.  When the file holds a list of
    dictionaries and one of them has no title, the manager starts empty,
    however many of the others are well formed, and reports nothing; the
    first add then writes a file that holds the new task alone. *)
Theorem load_untitled_then_add (env : nat -> supply) (items : list value)
    (self : Z) (now : string) (title description priority due_date : value) :
  forallb is_dict items = true ->
  existsb untitled items = true ->
  let started := TaskManager_init (Json (VList items)) env in
  let task := Task_init self now title description priority due_date VNone in
  started = (Ok tt, {| tasks := []; disk := Json (VList items) |})
  /\ add_task self now title description priority due_date (snd started)
     = (Ok task, {| tasks := [task]; disk := saved [task] |}).
Proof.
  intros Hd Hu started task.
  assert (Hs : started = (Ok tt, {| tasks := []; disk := Json (VList items) |})).
  { unfold started, TaskManager_init, load_tasks. simpl.
    now rewrite (from_dicts_untitled env items 0%nat Hd Hu). }
  split; [exact Hs|]. rewrite Hs. reflexivity.
Qed.

Lemma load_untitled_then_add_witness :
  TaskManager_init (Json (VList partly_untitled)) demo_env
  = (Ok tt, {| tasks := []; disk := Json (VList partly_untitled) |})
  /\ add_task 16 "2024-03-01 09:00:00" (VStr "Buy milk") (VStr "")
       (VStr "High") (VStr "")
       (snd (TaskManager_init (Json (VList partly_untitled)) demo_env))
     = (Ok (Task_init 16 "2024-03-01 09:00:00" (VStr "Buy milk") (VStr "")
              (VStr "High") (VStr "") VNone),
        {| tasks := [Task_init 16 "2024-03-01 09:00:00" (VStr "Buy milk")
                       (VStr "") (VStr "High") (VStr "") VNone];
           disk := saved [Task_init 16 "2024-03-01 09:00:00" (VStr "Buy milk")
                            (VStr "") (VStr "High") (VStr "") VNone] |}).
Proof.
  apply (load_untitled_then_add demo_env partly_untitled 16
           "2024-03-01 09:00:00" (VStr "Buy milk") (VStr "") (VStr "High")
           (VStr ""));
    reflexivity.
Defined.

(** ** Load, then persist *)

Lemma from_dict_canonical (self : Z) (now1 now2 : string) (v : value) :
  canonical v = true ->
  exists d,
    v = VDict d
    /\ from_dict self now1 now2 v = Ok {| addr := self; attrs := d |}
    /\ to_dict {| addr := self; attrs := d |} = Ok (VDict d).
Proof.
  destruct v as [| | | | |d]; try discriminate. unfold canonical.
  destruct (list_eq_dec string_dec (map fst d) fields) as [E|]; [|discriminate].
  unfold fields in E.
  do 8 (destruct d as [|[? ?] d]; try discriminate).
  simpl in E. injection E as -> -> -> -> -> -> ->.
  simpl. intros H. eexists. split; [reflexivity|]. split; [|reflexivity].
  unfold from_dict. simpl. now destruct v.
Qed.

Lemma from_dicts_canonical (env : nat -> supply) (items : list value) :
  forall n,
    forallb canonical items = true ->
    exists ts,
      from_dicts env n items = Ok ts /\ mapM to_dict ts = Ok items.
Proof.
  induction items as [|v items IH]; intros n H.
  - exists []. split; reflexivity.
  - cbn [forallb] in H. apply andb_true_iff in H. destruct H as [Hv H].
    destruct (from_dict_canonical (new_id (env n)) (now_init (env n))
                (now_default (env n)) v Hv) as (d & -> & Hload & Hdump).
    destruct (IH (S n) H) as (ts & Hts & Hback).
    eexists. cbn [from_dicts]. rewrite Hload. cbn [rbind]. rewrite Hts.
    cbn [rbind]. split; [reflexivity|].
    cbn [mapM]. rewrite Hdump. cbn [rbind]. now rewrite Hback.
Qed.

(** X11.  A file as the manager writes it, a list of dictionaries with the
    seven keys in order and ids other than [[None]], survives a load
    followed by a save unchanged: the manager built over it saves the very
    same content. *)
Theorem load_save_roundtrip (env : nat -> supply) (items : list value) :
  forallb canonical items = true ->
  exists tm,
    TaskManager_init (Json (VList items)) env = (Ok tt, tm)
    /\ disk tm = Json (VList items)
    /\ save_tasks tm = (Ok tt, tm).
Proof.
  intros H.
  destruct (from_dicts_canonical env items 0%nat H) as (ts & Hts & Hback).
  exists {| tasks := ts; disk := Json (VList items) |}.
  split; [|split; [reflexivity|]].
  - unfold TaskManager_init, load_tasks. simpl. now rewrite Hts.
  - unfold save_tasks, bind, get_tasks, lift, write_file. cbn [tasks].
    now rewrite Hback.
Qed.

Lemma load_save_roundtrip_witness :
  exists tm,
    TaskManager_init old_file demo_env = (Ok tt, tm)
    /\ disk tm = old_file
    /\ save_tasks tm = (Ok tt, tm).
Proof.
  apply (load_save_roundtrip demo_env
           [ VDict [ ("id", VInt 139872); ("title", VStr "Old task");
                     ("description", VStr ""); ("priority", VStr "Low");
                     ("due_date", VStr ""); ("completed", VBool false);
                     ("created_at", VStr "2024-02-28 18:30:00") ] ]).
  reflexivity.
Defined.

(** ** Searching *)

Lemma append_assoc (a b c : string) :
  ((a ++ b) ++ c)%string = (a ++ b ++ c)%string.
Proof. induction a as [|x a IH]; simpl; [reflexivity | now rewrite IH]. Qed.

Lemma lower_append (a b : string) :
  lower (a ++ b) = (lower a ++ lower b)%string.
Proof. induction a as [|x a IH]; simpl; [reflexivity | now rewrite IH]. Qed.

Lemma occurs_in_lower (q s : string) :
  occurs_in q s -> occurs_in (lower q) (lower s).
Proof.
  intros (pre & post & ->). exists (lower pre), (lower post).
  now rewrite !lower_append.
Qed.

Lemma occurs_in_trans (a b c : string) :
  occurs_in a b -> occurs_in b c -> occurs_in a c.
Proof.
  intros (p & s & ->) (p' & s' & ->).
  exists (p' ++ p)%string, (s ++ s')%string.
  now rewrite !append_assoc.
Qed.

Lemma search_tasks_texts (tm : TaskManager) (query : string) :
  forallb has_texts (tasks tm) = true ->
  search_tasks query tm
  = (Ok (filter (fun t => str_in (lower query) (lower (text_of "title" t))
                          || str_in (lower query)
                                    (lower (text_of "description" t)))
                (tasks tm)),
     tm).
Proof.
  intros H. unfold search_tasks, bind, get_tasks, lift.
  rewrite (filterM_filter _ _ (tasks tm)
             (fun t Ht => matches_texts (lower query) t
                            (proj1 (forallb_forall _ _) H t Ht))).
  reflexivity.
Qed.

(** X12.  On a store whose titles and descriptions are strings of ASCII
    characters, an ASCII query that equals, letter case aside, any stretch
    of a held task's title or description finds that task. *)
Theorem search_finds_stretch (tm : TaskManager) (t : Task)
    (pre mid post query : string) :
  forallb has_texts (tasks tm) = true ->
  forallb ascii_texts (tasks tm) = true ->
  ascii_text query = true ->
  In t (tasks tm) ->
  text_of "title" t = (pre ++ mid ++ post)%string
  \/ text_of "description" t = (pre ++ mid ++ post)%string ->
  lower query = lower mid ->
  exists found, search_tasks query tm = (Ok found, tm) /\ In t found.
Proof.
  intros H _ _ Hin Htext Hq. rewrite (search_tasks_texts tm query H).
  eexists. split; [reflexivity|]. apply filter_In. split; [assumption|].
  rewrite Hq. apply orb_true_iff.
  destruct Htext as [-> | ->]; [left | right];
    apply str_in_spec, occurs_in_lower; now exists pre, post.
Qed.

Lemma search_finds_stretch_witness :
  forallb ascii_texts (tasks demo_store) = true
  /\ ascii_text "rEPO" = true
  /\ exists found,
       search_tasks "rEPO" demo_store = (Ok found, demo_store)
       /\ In (nth 1 (tasks demo_store) (mkTask 0 [])) found.
Proof.
  split; [reflexivity|]. split; [reflexivity|].
  apply (search_finds_stretch demo_store (nth 1 (tasks demo_store) (mkTask 0 []))
           "Write " "repo" "rt" "rEPO").
  - reflexivity.
  - reflexivity.
  - reflexivity.
  - simpl. tauto.
  - left. reflexivity.
  - reflexivity.
Defined.

Lemma filter_filter_implied {A : Type} (p q : A -> bool) (xs : list A) :
  (forall x, q x = true -> p x = true) ->
  filter q (filter p xs) = filter q xs.
Proof.
  intros H. induction xs as [|x xs IH]; simpl; [reflexivity|].
  destruct (p x) eqn:Ep; simpl.
  - now rewrite IH.
  - destruct (q x) eqn:Eq; [|assumption].
    rewrite (H x Eq) in Ep. discriminate.
Qed.

(** X13.  On a store whose titles and descriptions are strings of ASCII
    characters, making an ASCII query longer never adds results: when one
    query is a stretch of another, what the longer one finds is, in the
    same order, a selection of what the shorter one finds. *)
Theorem search_refines (tm : TaskManager) (short long : string) :
  forallb has_texts (tasks tm) = true ->
  forallb ascii_texts (tasks tm) = true ->
  ascii_text long = true ->
  occurs_in short long ->
  exists found_short found_long sel,
    search_tasks short tm = (Ok found_short, tm)
    /\ search_tasks long tm = (Ok found_long, tm)
    /\ found_long = filter sel found_short
    /\ (forall t, In t found_long -> In t found_short).
Proof.
  intros H _ _ Hocc.
  rewrite (search_tasks_texts tm short H), (search_tasks_texts tm long H).
  set (sel q := fun t => str_in (lower q) (lower (text_of "title" t))
                         || str_in (lower q) (lower (text_of "description" t))).
  assert (Himp : forall t, sel long t = true -> sel short t = true).
  { intros t. unfold sel. rewrite !orb_true_iff, !str_in_spec.
    apply occurs_in_lower in Hocc.
    intros [Ht | Hd]; [left | right]; now apply (occurs_in_trans _ (lower long)). }
  exists (filter (sel short) (tasks tm)), (filter (sel long) (tasks tm)),
         (sel long).
  split; [reflexivity|]. split; [reflexivity|]. split.
  - symmetry. now apply filter_filter_implied.
  - intros t Ht. apply filter_In in Ht. destruct Ht as [Hin Hs].
    apply filter_In. auto.
Qed.

Lemma search_refines_witness :
  forallb ascii_texts (tasks demo_store) = true
  /\ ascii_text "Report" = true
  /\ occurs_in "r" "Report"
  /\ exists found_short found_long sel,
       search_tasks "r" demo_store = (Ok found_short, demo_store)
       /\ search_tasks "Report" demo_store = (Ok found_long, demo_store)
       /\ found_long = filter sel found_short
       /\ (forall t, In t found_long -> In t found_short).
Proof.
  assert (H : occurs_in "r" "Report") by now exists "Repo", "t".
  split; [reflexivity|]. split; [reflexivity|]. split; [exact H|].
  apply (search_refines demo_store "r" "Report");
    [reflexivity | reflexivity | reflexivity | exact H].
Defined.

(** * The command line *)

Lemma valid_priority_in (p : string) :
  invalid_priority p = false -> In p ["Low"; "Medium"; "High"].
Proof.
  unfold invalid_priority. rewrite negb_false_iff, existsb_exists.
  intros (x & Hin & Heq). apply String.eqb_eq in Heq. now subst.
Qed.

Lemma chosen_priority (text : string) :
  (if invalid_priority (if String.eqb text "" then "Medium" else text)
   then "Medium"
   else if String.eqb text "" then "Medium" else text)
  = passed_priority text.
Proof.
  unfold passed_priority, invalid_priority.
  destruct (String.eqb_spec text "") as [->|Hne]; [reflexivity|].
  now destruct (existsb (String.eqb text) ["Low"; "Medium"; "High"]).
Qed.

(** X14.  Whatever is typed and whatever the manager holds, adding from the
    command line either leaves the manager exactly as it was or has asked
    it to append one task, whose title is not empty and whose priority is
    one of Low, Medium and High. *)
Theorem cli_add_task_validates (strip : string -> string) (str : value -> string)
    (self : Z) (now : string) (tm : TaskManager) (c : console) :
  snd (cli_add_task strip str self now tm c) = (tm, snd (snd (cli_add_task strip str self now tm c)))
  \/ exists title description priority due_date,
       title <> ""
       /\ In priority ["Low"; "Medium"; "High"]
       /\ tasks (fst (snd (cli_add_task strip str self now tm c)))
          = added tm self now title description priority due_date.
Proof.
  unfold cli_add_task, input, print. cbn [stdin stdout].
  destruct (stdin c) as [|l1 r1]; [now left|]. cbn [stdin stdout].
  destruct (String.eqb_spec (strip l1) "") as [E|Htitle]; [now left|].
  destruct r1 as [|l2 r2]; [now left|]. cbn [stdin stdout].
  destruct r2 as [|l3 r3]; [now left|]. cbn [stdin stdout].
  set (typed := if String.eqb (strip l3) "" then "Medium" else strip l3).
  assert (Hp : exists priority,
             In priority ["Low"; "Medium"; "High"]
             /\ (if invalid_priority typed then "Medium" else typed) = priority).
  { destruct (invalid_priority typed) eqn:Ei.
    - exists "Medium". simpl. tauto.
    - exists typed. split; [now apply valid_priority_in | reflexivity]. }
  destruct Hp as (priority & Hin & Hpri).
  destruct (invalid_priority typed); subst priority; cbn [stdin stdout];
    (destruct r3 as [|l4 r4]; [now left|]); cbn [stdin stdout]; right.
  - exists (strip l1), (strip l2), "Medium", (strip l4).
    split; [assumption|]. split; [assumption|].
    pose proof (tasks_add_task tm self now (VStr (strip l1)) (VStr (strip l2))
                  (VStr "Medium") (VStr (strip l4))) as Ht.
    destruct (add_task _ _ _ _ _ _ tm) as [[task|e] tm']; cbn [snd] in Ht.
    + destruct (getattr task "id"); exact Ht.
    + exact Ht.
  - exists (strip l1), (strip l2), typed, (strip l4).
    split; [assumption|]. split; [assumption|].
    pose proof (tasks_add_task tm self now (VStr (strip l1)) (VStr (strip l2))
                  (VStr typed) (VStr (strip l4))) as Ht.
    destruct (add_task _ _ _ _ _ _ tm) as [[task|e] tm']; cbn [snd] in Ht.
    + destruct (getattr task "id"); exact Ht.
    + exact Ht.
Qed.

(** X15.  With four lines typed, the first of which is not blank once
    stripped, and a store of task records, adding from the command line
    returns after the manager has appended and saved one task: title,
    description and due date are the stripped lines, the priority is the
    stripped third line when that is Low, Medium or High and Medium
    otherwise, also when the line is empty.  Exactly four lines are
    consumed. *)
Theorem cli_add_task_adds (strip : string -> string) (str : value -> string)
    (self : Z) (now : string) (tm : TaskManager) (c : console)
    (l1 l2 l3 l4 : string) (rest : list string) :
  stdin c = l1 :: l2 :: l3 :: l4 :: rest ->
  strip l1 <> "" ->
  forallb is_record (tasks tm) = true ->
  let ts := added tm self now (strip l1) (strip l2)
                  (passed_priority (strip l3)) (strip l4) in
  exists out,
    cli_add_task strip str self now tm c
    = (Returns, ({| tasks := ts; disk := saved ts |},
                 {| stdin := rest; stdout := out |})).
Proof.
  intros Hin Htitle Hrec ts.
  unfold cli_add_task, input, print. cbn [stdin stdout]. rewrite Hin.
  cbn [stdin stdout].
  destruct (String.eqb_spec (strip l1) "") as [E|_]; [contradiction|].
  pose proof (chosen_priority (strip l3)) as Hp.
  assert (Hadd : add_task self now (VStr (strip l1)) (VStr (strip l2))
                   (VStr (passed_priority (strip l3))) (VStr (strip l4)) tm
                 = (Ok (Task_init self now (VStr (strip l1)) (VStr (strip l2))
                          (VStr (passed_priority (strip l3))) (VStr (strip l4))
                          VNone),
                    {| tasks := ts; disk := saved ts |})).
  { unfold add_task, bind, get_tasks, set_tasks, ret.
    rewrite save_tasks_records; [reflexivity|].
    rewrite forallb_app, Hrec. reflexivity. }
  destruct (invalid_priority
              (if String.eqb (strip l3) "" then "Medium" else strip l3));
    rewrite <- Hp in Hadd; cbn [stdin stdout]; rewrite Hadd;
    cbn [getattr Task_init attrs dict_find String.eqb Ascii.eqb Bool.eqb];
    eexists; reflexivity.
Qed.

Lemma cli_add_task_adds_witness :
  exists out,
    cli_add_task strip_ascii str_of_id 64 "2024-03-01 09:30:00" demo_store
      demo_console
    = (Returns,
       ({| tasks := added demo_store 64 "2024-03-01 09:30:00" "Call bank" ""
                          "Medium" "2024-03-05";
           disk := saved (added demo_store 64 "2024-03-01 09:30:00" "Call bank"
                                "" "Medium" "2024-03-05") |},
        {| stdin := ["2"]; stdout := out |})).
Proof.
  apply (cli_add_task_adds strip_ascii str_of_id 64 "2024-03-01 09:30:00"
           demo_store demo_console "  Call bank  " "" "high" "2024-03-05" ["2"]).
  - reflexivity.
  - discriminate.
  - reflexivity.
Defined.

(** X16.  When the first line typed is blank once stripped, adding from
    the command line returns at once: the manager and its file are
    untouched and only that one line is consumed. *)
Theorem cli_add_task_refuses_blank (strip : string -> string)
    (str : value -> string) (self : Z) (now : string) (tm : TaskManager)
    (c : console) (l1 : string) (rest : list string) :
  stdin c = l1 :: rest ->
  strip l1 = "" ->
  exists out,
    cli_add_task strip str self now tm c
    = (Returns, (tm, {| stdin := rest; stdout := out |})).
Proof.
  intros Hin Hblank. unfold cli_add_task, input, print. cbn [stdin stdout].
  rewrite Hin. cbn [stdin stdout]. rewrite Hblank. cbn [String.eqb].
  eexists. reflexivity.
Qed.

Lemma cli_add_task_refuses_blank_witness :
  exists out,
    cli_add_task strip_ascii str_of_id 64 "2024-03-01 09:30:00" demo_store
      {| stdin := ["   "; "1"]; stdout := [] |}
    = (Returns, (demo_store, {| stdin := ["1"]; stdout := out |})).
Proof.
  apply (cli_add_task_refuses_blank strip_ascii str_of_id 64
           "2024-03-01 09:30:00" demo_store
           {| stdin := ["   "; "1"]; stdout := [] |} "   " ["1"]);
    reflexivity.
Defined.
